(** * The knapsack notebook (SciPy and PuLP), embedded and verified

    Source: [knapsack-problem/knapsack-problem-python-solution.ipynb].

    The notebook declares a seven-item table, builds one mixed-integer
    program twice (once through [scipy.optimize.milp], once through
    PuLP), calls the solver, prints what comes back and appends a
    boolean column to the table.

    Numbers: Python [int] is [Z]; Python [float] is an exact rational
    [Q] (the decimal literal of the source, read exactly).  The two
    solvers are external: they are arguments of the notebook, and the
    meaning of a program handed to them (bounds, integrality,
    constraint, sense) is the documented one of each library. *)

From Stdlib Require Import ZArith QArith String List Lia Bool.
From stdpp Require Import base list strings.

Local Open Scope Q_scope.

(** ** Python fragments *)

Module Py.

Inductive exn : Type :=
| ValueError (msg : string)
| TypeError (msg : string)
| KeyError (key : string)
| SolverError (msg : string).

(** An insertion-ordered [dict] with string keys: assignment to a
    present key keeps its position, a new key goes last. *)
Definition dict (V : Type) : Type := list (string * V).

Fixpoint get {V} (d : dict V) (k : string) : option V :=
  match d with
  | [] => None
  | (k', v) :: d' => if String.eqb k' k then Some v else get d' k
  end.

Fixpoint set {V} (d : dict V) (k : string) (v : V) : dict V :=
  match d with
  | [] => [(k, v)]
  | (k', v') :: d' =>
      if String.eqb k' k then (k', v) :: d' else (k', v') :: set d' k v
  end.

Definition keys {V} (d : dict V) : list string := map fst d.

(** [dict(zip(ks, vs))]: [zip] stops at the shorter list. *)
Definition dict_zip {V} (ks : list string) (vs : list V) : dict V :=
  fold_left (fun d kv => set d (fst kv) (snd kv)) (zip ks vs) [].

(** [sum(...)] over floats. *)
Definition sum (l : list Q) : Q := fold_left Qplus l 0.

(** Elementwise product of two one-dimensional numpy arrays, with
    numpy's broadcasting of a length-one operand and its error on any
    other mismatch. *)
Definition np_mul {A} (mul : A -> A -> A) (a b : list A) : exn + list A :=
  match a, b with
  | [x], _ => inr (map (mul x) b)
  | _, [y] => inr (map (fun x => mul x y) a)
  | _, _ =>
      if Nat.eqb (length a) (length b) then inr (zip_with mul a b)
      else inl (ValueError "operands could not be broadcast together")
  end.

(** Unary minus on an integer array. *)
Definition np_neg (a : list Z) : list Z := map Z.opp a.

End Py.

(** ** pandas: a table is an ordered dictionary of columns *)

Module Pandas.

Inductive column : Type :=
| IntCol (l : list Z)
| StrCol (l : list string)
| FloatCol (l : list Q)
| BoolCol (l : list bool).

Definition col_len (c : column) : nat :=
  match c with
  | IntCol l => length l
  | StrCol l => length l
  | FloatCol l => length l
  | BoolCol l => length l
  end.

Definition DataFrame : Type := Py.dict column.

Definition nrows (df : DataFrame) : nat :=
  match df with
  | [] => 0
  | (_, c) :: _ => col_len c
  end.

(** [pd.DataFrame(d)] for a dict of lists: columns in key order; lists
    of different lengths are refused. *)
Definition of_dict (d : Py.dict column) : Py.exn + DataFrame :=
  if forallb (fun kc => Nat.eqb (col_len (snd kc)) (nrows d)) d
  then inr d
  else inl (Py.ValueError "All arrays must be of the same length").

(** [df[k] = values] for a list: the list must have one entry per row;
    an existing column of that name is replaced, a new name is added
    as the last column. *)
Definition setitem (df : DataFrame) (k : string) (c : column)
  : Py.exn + DataFrame :=
  if Nat.eqb (col_len c) (nrows df) then inr (Py.set df k c)
  else inl (Py.ValueError "Length of values does not match length of index").

End Pandas.

(** ** Problem data (cell 2) *)

(** [knapsack_capacity = 5] *)
Definition knapsack_capacity : Z := 5.

(** The dict [items] has four fixed keys and is only ever read through
    them: a record with one field per key. *)
Record Items : Type := {
  Item_Id : list Z;             (* items['Item Id'] *)
  Item_Name : list string;      (* items['Item Name'] *)
  Weight_kg : list Q;           (* items['Weight (kg)'] *)
  Relative_Value : list Z       (* items['Relative Value'] *)
}.

Definition items : Items := {|
  Item_Id := [1; 2; 3; 4; 5; 6; 7]%Z;
  Item_Name := [
    "Compass";
    "Knife";
    "Fire Starter Kit";
    "Tent";
    "Propane Cylinder";
    "Food";
    "Portable Telescope"
  ]%string;
  Weight_kg := [0.5; 1.5; 0.4; 1.0; 1.6; 1.1; 0.8];
  Relative_Value := [6; 5; 4; 4; 3; 4; 1]%Z
|}.

(** The dict as [pd.DataFrame] receives it: keys in source order. *)
Definition items_dict (it : Items) : Py.dict Pandas.column :=
  [ ("Item Id"%string, Pandas.IntCol (Item_Id it));
    ("Item Name"%string, Pandas.StrCol (Item_Name it));
    ("Weight (kg)"%string, Pandas.FloatCol (Weight_kg it));
    ("Relative Value"%string, Pandas.IntCol (Relative_Value it)) ].

(** ** Linear algebra shared by both models *)

(** Sum of the pairwise products of two coefficient lists. *)
Definition dot (a x : list Q) : Q := Py.sum (zip_with Qmult a x).

(** A vector of {0,1}^n, as floats. *)
Definition binary_vector (x : list Q) : Prop :=
  Forall (fun v => v == 0 \/ v == 1) x.

Definition is_integer (v : Q) : Prop := exists z : Z, v == inject_Z z.

(** An optional bound; [None] is "no bound". *)
Definition above (l : option Q) (v : Q) : Prop :=
  match l with Some b => b <= v | None => True end.

Definition below (v : Q) (u : option Q) : Prop :=
  match u with Some b => v <= b | None => True end.

(** ** scipy.optimize: what the notebook builds and what [milp] means *)

Module SciPy.

(** [Bounds(lb, ub)] *)
Record Bounds : Type := { lb : list Q; ub : list Q }.

(** [LinearConstraint(A, lb, ub)] with a single row [A]; [None] is an
    infinite bound (the default of the library). *)
Record LinearConstraint : Type := {
  A : list Q;
  con_lb : option Q;
  con_ub : option Q
}.

(** The arguments of one [milp] call. *)
Record Problem : Type := {
  c : list Q;
  bounds : Bounds;
  constraints : LinearConstraint;
  integrality : list Z
}.

(** The fields of the returned [OptimizeResult] that the notebook
    prints.  [x] and [fun] are [None] when no solution was found. *)
Record OptimizeResult : Type := {
  message : string;
  success : bool;
  status : Z;
  fun_ : option Q;
  x : option (list Q);
  mip_node_count : option Z;
  mip_dual_bound : option Q;
  mip_gap : option Q
}.

(** Integrality code of one variable: 0 continuous, 1 "must be an
    integer within bounds"; the semi-continuous codes 2 and 3 are not
    used by the notebook and put no condition here. *)
Definition integral (k : Z) (v : Q) : Prop :=
  match k with
  | 1%Z => is_integer v
  | _ => True
  end.

(** [x] lies within the variable bounds. *)
Definition within_bounds (P : Problem) (x : list Q) : Prop :=
  Forall2 Qle (lb (bounds P)) x /\ Forall2 Qle x (ub (bounds P)).

(** The feasible set of the program handed to [milp]. *)
Definition feasible (P : Problem) (x : list Q) : Prop :=
  length x = length (c P) /\
  within_bounds P x /\
  Forall2 integral (integrality P) x /\
  above (con_lb (constraints P)) (dot (A (constraints P)) x) /\
  below (dot (A (constraints P)) x) (con_ub (constraints P)).

(** [milp] minimises [c @ x]. *)
Definition objective (P : Problem) (x : list Q) : Q := dot (c P) x.

Definition optimal (P : Problem) (x : list Q) : Prop :=
  feasible P x /\ forall y, feasible P y -> objective P x <= objective P y.

End SciPy.

(** ** PuLP: what the notebook builds and what the model means *)

Module PuLP.

Inductive LpCategory : Type := LpContinuous | LpInteger | LpBinary.

Inductive LpSense : Type := LpMinimize | LpMaximize.

Record LpVariable : Type := {
  var_name : string;
  lowBound : option Q;
  upBound : option Q;
  cat : LpCategory
}.

(** [LpVariable.dicts(name, indices, lowBound, upBound, cat)]: one
    variable per index, stored under the index. *)
Definition LpVariable_dicts (name : string) (indices : list string)
    (lowBound upBound : option Q) (cat : LpCategory)
  : Py.dict LpVariable :=
  fold_left
    (fun d i =>
       Py.set d i {| var_name := (name ++ "_" ++ i)%string;
                     lowBound := lowBound;
                     upBound := upBound;
                     cat := cat |})
    indices [].

(** An affine expression without constant: (coefficient, variable)
    terms, the variable named by its key in the variable dict. *)
Definition LpAffineExpression : Type := list (Q * string).

(** The one constraint shape the notebook uses: [expr <= rhs]. *)
Record LpConstraint : Type := { lhs : LpAffineExpression; rhs : Q }.

Record LpProblem : Type := {
  prob_name : string;
  sense : LpSense;
  objective : LpAffineExpression;
  constraints : list LpConstraint
}.

(** [pulp.LpProblem(name, sense)] *)
Definition new_problem (name : string) (s : LpSense) : LpProblem :=
  {| prob_name := name; sense := s; objective := []; constraints := [] |}.

(** [prob += expr] sets the objective. *)
Definition set_objective (p : LpProblem) (e : LpAffineExpression) : LpProblem :=
  {| prob_name := prob_name p; sense := sense p;
     objective := e; constraints := constraints p |}.

(** [prob += (expr <= rhs)] adds a constraint. *)
Definition add_constraint (p : LpProblem) (k : LpConstraint) : LpProblem :=
  {| prob_name := prob_name p; sense := sense p;
     objective := objective p; constraints := constraints p ++ [k] |}.

(** [LpAffineExpression.value()]: [None] as soon as a variable has no
    value, else the sum of coefficient times value. *)
Fixpoint value (e : LpAffineExpression) (val : string -> option Q) : option Q :=
  match e with
  | [] => Some 0
  | (a, v) :: e' =>
      match val v, value e' val with
      | Some xv, Some s => Some (a * xv + s)
      | _, _ => None
      end
  end.

(** What a solve leaves behind: the returned status, [prob.sol_status]
    and each variable's [varValue] ([None]: not set). *)
Record Solution : Type := {
  status : Z;
  sol_status : Z;
  varValue : string -> option Q
}.

(** The library's table [LpStatus], a dict from status code to text;
    [None] is a missing key. *)
Definition LpStatus (s : Z) : option string :=
  match s with
  | 0%Z => Some "Not Solved"
  | 1%Z => Some "Optimal"
  | (-1)%Z => Some "Infeasible"
  | (-2)%Z => Some "Unbounded"
  | (-3)%Z => Some "Undefined"
  | _ => None
  end%string.

(** A variable's value respects its declaration.  [LpBinary] is an
    integer variable with bounds 0 and 1. *)
Definition var_ok (v : LpVariable) (xv : Q) : Prop :=
  above (lowBound v) xv /\ below xv (upBound v) /\
  match cat v with
  | LpContinuous => True
  | LpInteger => is_integer xv
  | LpBinary => is_integer xv /\ 0 <= xv <= 1
  end.

(** The assignment that gives the i-th variable (in key order) the
    i-th entry of [x]. *)
Definition assignment (vars : Py.dict LpVariable) (x : list Q)
  : string -> option Q :=
  Py.get (Py.dict_zip (Py.keys vars) x).

Definition constraint_ok (val : string -> option Q) (k : LpConstraint) : Prop :=
  exists s, value (lhs k) val = Some s /\ s <= rhs k.

(** The feasible set, over value vectors in key order. *)
Definition feasible (vars : Py.dict LpVariable) (p : LpProblem) (x : list Q) : Prop :=
  length x = length vars /\
  Forall2 var_ok (map snd vars) x /\
  Forall (constraint_ok (assignment vars x)) (constraints p).

Definition objective_value (vars : Py.dict LpVariable) (p : LpProblem) (x : list Q)
  : option Q :=
  value (objective p) (assignment vars x).

(** [v1] is at least as good as [v2] for the sense of the problem. *)
Definition better (s : LpSense) (v1 v2 : Q) : Prop :=
  match s with
  | LpMaximize => v2 <= v1
  | LpMinimize => v1 <= v2
  end.

Definition optimal (vars : Py.dict LpVariable) (p : LpProblem) (x : list Q) : Prop :=
  feasible vars p x /\
  exists v, objective_value vars p x = Some v /\
    forall y w, feasible vars p y -> objective_value vars p y = Some w ->
                better (sense p) v w.

End PuLP.

(** ** The notebook *)

Module Notebook.

(** What a cell can print or display. *)
Inductive pyval : Type :=
| PStr (s : string)
| PInt (z : Z)
| PInts (l : list Z)
| PFloat (q : Q)
| POptFloat (q : option Q)
| POptFloats (l : list (option Q))
| POptArray (a : option (list Q))
| PFrame (df : Pandas.DataFrame)
| PResult (r : SciPy.OptimizeResult).

(** The observable trace of a run: [print] calls, values displayed as
    a cell's result, and calls into a solver. *)
Inductive event : Type :=
| Printed (args : list pyval)
| Displayed (v : pyval)
| Called (fn : string).

(** A computation writes to the trace and either raises or returns.
    Nothing in the notebook catches an exception, so there is no
    handler operation. *)
Definition M (A : Type) : Type := (list event * (Py.exn + A))%type.

Definition ret {A} (a : A) : M A := ([], inr a).

Definition bind {A B} (m : M A) (f : A -> M B) : M B :=
  match m with
  | (o, inl e) => (o, inl e)
  | (o, inr a) => let '(o', r) := f a in (o ++ o', r)
  end.

Definition raise {A} (e : Py.exn) : M A := ([], inl e).
Definition lift {A} (r : Py.exn + A) : M A := ([], r).
Definition print (args : list pyval) : M unit := ([Printed args], inr tt).
Definition display (v : pyval) : M unit := ([Displayed v], inr tt).
Definition call {A} (fn : string) (r : Py.exn + A) : M A := ([Called fn], r).

Notation "x <- m ;; k" := (bind m (fun x => k))
  (at level 60, m at next level, right associativity).
Notation "m ;;; k" := (bind m (fun _ => k))
  (at level 60, right associativity).

(** [True if i==1 else False], on a float. *)
Definition select (i : Q) : bool := if Qeq_bool i 1 then true else false.

(** The same on what [LpVariable.value()] returns: [None == 1] is
    false. *)
Definition select_opt (i : option Q) : bool :=
  if match i with Some q => Qeq_bool q 1 | None => false end
  then true else false.

(** [[True if i==1 else False for i in sol.x]] *)
Definition scipy_items_to_select (x : list Q) : list bool := map select x.

(** [[True if i==1 else False for i in pulp_decision_var_results]] *)
Definition pulp_items_to_select (r : list (option Q)) : list bool :=
  map select_opt r.

(** Cell 3: the arguments of [milp], given [decision_variables]. *)
Definition milp_arguments (decision_variables : list Z) : SciPy.Problem :=
  let lower_bounds := map (fun _ => 0%Z) (seq 0 (length decision_variables)) in
  let upper_bounds := map (fun _ => 1%Z) (seq 0 (length decision_variables)) in
  let integrality := repeat 1%Z (length decision_variables) in
  {| SciPy.c := map inject_Z decision_variables;
     SciPy.bounds := {| SciPy.lb := map inject_Z lower_bounds;
                        SciPy.ub := map inject_Z upper_bounds |};
     SciPy.constraints := {| SciPy.A := Weight_kg items;
                             SciPy.con_lb := Some 0;
                             SciPy.con_ub := Some (inject_Z knapsack_capacity) |};
     SciPy.integrality := integrality |}.

(** Cell 7: the PuLP variables and the two lookup dicts. *)
Definition x1_decision_var : Py.dict PuLP.LpVariable :=
  PuLP.LpVariable_dicts "x1" (Item_Name items) (Some 0) (Some 1) PuLP.LpBinary.

Definition weights : Py.dict Q :=
  Py.dict_zip (Item_Name items) (Weight_kg items).

Definition relative_values : Py.dict Z :=
  Py.dict_zip (Item_Name items) (Relative_Value items).

(** [d[i]] on a dict: [KeyError] on a missing key. *)
Definition getitem {V} (d : Py.dict V) (i : string) : Py.exn + V :=
  match Py.get d i with
  | Some v => inr v
  | None => inl (Py.KeyError i)
  end.

(** [[coef[i] * x1_decision_var[i] for i in names]], left to right. *)
Fixpoint terms {V} (inj : V -> Q) (coef : Py.dict V) (names : list string)
  : Py.exn + PuLP.LpAffineExpression :=
  match names with
  | [] => inr []
  | i :: names' =>
      match getitem coef i with
      | inl e => inl e
      | inr a =>
          match getitem x1_decision_var i with
          | inl e => inl e
          | inr _ =>
              match terms inj coef names' with
              | inl e => inl e
              | inr ts => inr ((inj a, i) :: ts)
              end
          end
      end
  end.

Record Globals : Type := {
  df : Pandas.DataFrame;
  sol : SciPy.OptimizeResult;
  prob : PuLP.LpProblem;
  results : Z;
  pulp_decision_var_results : list (option Q)
}.

Section Run.

(** The two external solver entry points: [scipy.optimize.milp] and
    [prob.solve(solver = get_solver('PULP_CBC_CMD'))]. *)
Variable milp : SciPy.Problem -> Py.exn + SciPy.OptimizeResult.
Variable solve : Py.dict PuLP.LpVariable -> PuLP.LpProblem
                 -> Py.exn + PuLP.Solution.

(** The code cells, named by their execution count (cell 1 only
    imports). *)
Definition cell2 : M Pandas.DataFrame :=
  df <- lift (Pandas.of_dict (items_dict items)) ;;
  print [PFrame df] ;;;
  ret df.

Definition cell3 : M SciPy.Problem :=
  decision_variables <-
    lift (Py.np_mul Z.mul (Py.np_neg (repeat 1%Z 7)) (Relative_Value items)) ;;
  print [PStr "Decision Variables:"; PInts decision_variables] ;;;
  let P := milp_arguments decision_variables in
  print [PStr "Decision Variables Lower Bounds:";
         PInts (map (fun _ => 0%Z) (seq 0 (length decision_variables)))] ;;;
  (* the source prints the upper bounds under the same label *)
  print [PStr "Decision Variables Lower Bounds:";
         PInts (map (fun _ => 1%Z) (seq 0 (length decision_variables)))] ;;;
  print [PStr "Integrality: "; PInts (SciPy.integrality P)] ;;;
  ret P.

Definition cell4 (P : SciPy.Problem) : M SciPy.OptimizeResult :=
  sol <- call "milp" (milp P) ;;
  print [PResult sol] ;;;
  ret sol.

Definition cell5 (sol : SciPy.OptimizeResult) : M unit :=
  print [PStr "Decision Variables:"; POptArray (SciPy.x sol)] ;;;
  print [PStr "Objective Value:"; POptFloat (SciPy.fun_ sol)] ;;;
  w <- match SciPy.x sol with
       | None => raise (Py.TypeError "unsupported operand type(s) for *")
       | Some x => lift (Py.np_mul Qmult x (Weight_kg items))
       end ;;
  print [PStr "Final Knapsack Weight:"; PFloat (Py.sum w)].

Definition cell6 (df : Pandas.DataFrame) (sol : SciPy.OptimizeResult)
  : M Pandas.DataFrame :=
  col <- match SciPy.x sol with
         | None => raise (Py.TypeError "'NoneType' object is not iterable")
         | Some x => ret (scipy_items_to_select x)
         end ;;
  df <- lift (Pandas.setitem df "scipy_items_to_select" (Pandas.BoolCol col)) ;;
  display (PFrame df) ;;;
  ret df.

Definition cell7 : M PuLP.LpProblem :=
  let prob := PuLP.new_problem "knapsack_pulp" PuLP.LpMaximize in
  obj <- lift (terms inject_Z relative_values (Item_Name items)) ;;
  let prob := PuLP.set_objective prob obj in
  con <- lift (terms (fun w => w) weights (Item_Name items)) ;;
  ret (PuLP.add_constraint prob
         {| PuLP.lhs := con; PuLP.rhs := inject_Z knapsack_capacity |}).

Definition cell8 (prob : PuLP.LpProblem) : M PuLP.Solution :=
  call "solve" (solve x1_decision_var prob).

Definition cell9 (prob : PuLP.LpProblem) (s : PuLP.Solution)
  : M (list (option Q)) :=
  text <- match PuLP.LpStatus (PuLP.status s) with
          | Some t => ret t
          | None => raise (Py.KeyError "LpStatus")
          end ;;
  print [PStr "Solution Status:"; PStr text; PInt (PuLP.sol_status s)] ;;;
  print [PStr "Final Objective Value:";
         POptFloat (PuLP.value (PuLP.objective prob) (PuLP.varValue s))] ;;;
  let pulp_decision_var_results :=
    map (PuLP.varValue s) (Py.keys x1_decision_var) in
  print [POptFloats pulp_decision_var_results] ;;;
  ret pulp_decision_var_results.

Definition cell10 (df : Pandas.DataFrame) (r : list (option Q))
  : M Pandas.DataFrame :=
  df <- lift (Pandas.setitem df "pulp_items_to_select"
                (Pandas.BoolCol (pulp_items_to_select r))) ;;
  display (PFrame df) ;;;
  ret df.

(** Run all cells, top to bottom. *)
Definition run_all : M Globals :=
  df0 <- cell2 ;;
  P <- cell3 ;;
  sol <- cell4 P ;;
  cell5 sol ;;;
  df1 <- cell6 df0 sol ;;
  prob <- cell7 ;;
  s <- cell8 prob ;;
  r <- cell9 prob s ;;
  df2 <- cell10 df1 r ;;
  ret {| df := df2; sol := sol; prob := prob;
         results := PuLP.status s; pulp_decision_var_results := r |}.

End Run.

End Notebook.

(** ** The two programs the notebook hands to the solvers *)

(** The arguments of the [milp] call of cell 4 (see [cell3_builds]). *)
Definition scipy_model : SciPy.Problem :=
  Notebook.milp_arguments (map Z.opp (Relative_Value items)).

(** The PuLP problem after cell 7 (see [cell7_builds]). *)
Definition pulp_model : PuLP.LpProblem :=
  {| PuLP.prob_name := "knapsack_pulp";
     PuLP.sense := PuLP.LpMaximize;
     PuLP.objective :=
       zip (map inject_Z (Relative_Value items)) (Item_Name items);
     PuLP.constraints :=
       [ {| PuLP.lhs := zip (Weight_kg items) (Item_Name items);
            PuLP.rhs := inject_Z knapsack_capacity |} ] |}.

(** Total value and total weight of a selection, as in the problem
    statement of the notebook: the sums of [x_i * V_i] and [x_i * w_i]. *)
Definition total_value (x : list Q) : Q :=
  dot (map inject_Z (Relative_Value items)) x.

Definition total_weight (x : list Q) : Q := dot (Weight_kg items) x.

(** The selection the notebook records: Compass, Knife, Fire Starter
    Kit, Tent and Food. *)
Definition selection : list Q := [1; 1; 1; 1; 0; 1; 0].

(** ** The outputs recorded in the notebook, as solver behaviours *)

(** The [OptimizeResult] printed by cell 4. *)
Definition recorded_sol : SciPy.OptimizeResult :=
  {| SciPy.message :=
       "Optimization terminated successfully. (HiGHS Status 7: Optimal)";
     SciPy.success := true;
     SciPy.status := 0;
     SciPy.fun_ := Some (-23.0);
     SciPy.x := Some [1.0; 1.0; 1.0; 1.0; 0.0; 1.0; 0.0];
     SciPy.mip_node_count := Some 1%Z;
     SciPy.mip_dual_bound := Some (-23.0);
     SciPy.mip_gap := Some 0.0 |}.

Definition recorded_milp (_ : SciPy.Problem) : Py.exn + SciPy.OptimizeResult :=
  inr recorded_sol.

(** The state CBC left behind, as cell 9 prints it. *)
Definition recorded_solution : PuLP.Solution :=
  {| PuLP.status := 1;
     PuLP.sol_status := 1;
     PuLP.varValue :=
       Py.get (Py.dict_zip (Item_Name items)
                 [1.0; 1.0; 1.0; 1.0; 0.0; 1.0; 0.0]) |}.

Definition recorded_solve (_ : Py.dict PuLP.LpVariable) (_ : PuLP.LpProblem)
  : Py.exn + PuLP.Solution :=
  inr recorded_solution.

(** ** Exhaustive search over {0,1}^n (used to decide optimality) *)

(** A selection as booleans, and the float vector it stands for. *)
Definition bits (b : list bool) : list Q :=
  map (fun t : bool => if t then 1 else 0) b.

(** All boolean vectors of length [n]. *)
Fixpoint all_selections (n : nat) : list (list bool) :=
  match n with
  | O => [[]]
  | S n' =>
      map (cons false) (all_selections n') ++ map (cons true) (all_selections n')
  end.

Definition best : list bool := [true; true; true; true; false; true; false].

(** One selection passes when, within the capacity [cap], its value is
    at most 23 and is 23 only for [best]. *)
Definition passes (cap : Q) (b : list bool) : bool :=
  implb (Qle_bool (total_weight (bits b)) cap)
        (Qle_bool (total_value (bits b)) 23
         && implb (Qeq_bool (total_value (bits b)) 23)
                  (bool_decide (b = best))).

(** The names of the rows a boolean column marks. *)
Definition selected_names (col : list bool) : list string :=
  map fst (filter (fun nb => snd nb = true) (zip (Item_Name items) col)).

(** The frames a trace shows, in order. *)
Definition frames (tr : list Notebook.event) : list Pandas.DataFrame :=
  omap (fun ev =>
          match ev with
          | Notebook.Printed [Notebook.PFrame d] => Some d
          | Notebook.Displayed (Notebook.PFrame d) => Some d
          | _ => None
          end) tr.

(** How often a trace calls the solver entry point [fn]. *)
Definition calls (fn : string) (tr : list Notebook.event) : nat :=
  length (List.filter
            (fun ev => match ev with
                       | Notebook.Called f => String.eqb f fn
                       | _ => false
                       end) tr).

(** A declaration [LpVariable(..., lowBound = 0, upBound = 1, cat = LpBinary)]. *)
Definition declared_binary (v : PuLP.LpVariable) : Prop :=
  PuLP.lowBound v = Some 0 /\ PuLP.upBound v = Some 1 /\ PuLP.cat v = PuLP.LpBinary.

(** The vectors the problem statement ranges over: [x] in {0,1}^7 with
    the sum of [w_i * x_i] at most the capacity. *)
Definition fits (x : list Q) : Prop :=
  length x = 7%nat /\ binary_vector x /\
  total_weight x <= inject_Z knapsack_capacity.

(** A column added by the result cells: one of the two solution names,
    holding booleans. *)
Definition solution_column (kc : string * Pandas.column) : Prop :=
  (fst kc = "scipy_items_to_select"%string \/ fst kc = "pulp_items_to_select"%string)
  /\ exists l, snd kc = Pandas.BoolCol l.

(** A frame that still starts with the four columns of [items], as
    constructed, followed only by solution columns. *)
Definition keeps_items (d : Pandas.DataFrame) : Prop :=
  exists extra, d = items_dict items ++ extra /\ Forall solution_column extra.

(** The SciPy program without the lower bound on the weighted sum. *)
Definition without_lower_bound (P : SciPy.Problem) : SciPy.Problem :=
  {| SciPy.c := SciPy.c P;
     SciPy.bounds := SciPy.bounds P;
     SciPy.constraints :=
       {| SciPy.A := SciPy.A (SciPy.constraints P);
          SciPy.con_lb := None;
          SciPy.con_ub := SciPy.con_ub (SciPy.constraints P) |};
     SciPy.integrality := SciPy.integrality P |}.

(** What the notebook relies on from the two solvers: on the program it
    is handed, each returns an optimal solution of that program. *)
Definition milp_returns_optimum
    (milp : SciPy.Problem -> Py.exn + SciPy.OptimizeResult) : Prop :=
  exists r x, milp scipy_model = inr r /\ SciPy.x r = Some x /\
              SciPy.optimal scipy_model x.

Definition solve_returns_optimum
    (solve : Py.dict PuLP.LpVariable -> PuLP.LpProblem -> Py.exn + PuLP.Solution)
  : Prop :=
  exists s x, solve Notebook.x1_decision_var pulp_model = inr s /\
              PuLP.LpStatus (PuLP.status s) <> None /\
              map (PuLP.varValue s) (Py.keys Notebook.x1_decision_var) = map Some x /\
              PuLP.optimal Notebook.x1_decision_var pulp_model x.

(** ** The cells as functions of the table

    The cells read the table and the capacity through the variables
    [items] and [knapsack_capacity]; here the same code with those two
    as arguments, to say what it does on other data. *)

Module Generic.
Import Notebook.

Section Table.

Variable it : Items.
Variable capacity : Z.

(** Cell 3, given [decision_variables]. *)
Definition milp_arguments (decision_variables : list Z) : SciPy.Problem :=
  let lower_bounds := map (fun _ => 0%Z) (seq 0 (length decision_variables)) in
  let upper_bounds := map (fun _ => 1%Z) (seq 0 (length decision_variables)) in
  let integrality := repeat 1%Z (length decision_variables) in
  {| SciPy.c := map inject_Z decision_variables;
     SciPy.bounds := {| SciPy.lb := map inject_Z lower_bounds;
                        SciPy.ub := map inject_Z upper_bounds |};
     SciPy.constraints := {| SciPy.A := Weight_kg it;
                             SciPy.con_lb := Some 0;
                             SciPy.con_ub := Some (inject_Z capacity) |};
     SciPy.integrality := integrality |}.

(** [-np.array([1] * 7) * np.array(items['Relative Value'])] *)
Definition decision_variables : Py.exn + list Z :=
  Py.np_mul Z.mul (Py.np_neg (repeat 1%Z 7)) (Relative_Value it).

Definition cell2 : M Pandas.DataFrame :=
  df <- lift (Pandas.of_dict (items_dict it)) ;;
  print [PFrame df] ;;;
  ret df.

Definition cell3 : M SciPy.Problem :=
  decision_variables <- lift decision_variables ;;
  print [PStr "Decision Variables:"; PInts decision_variables] ;;;
  let P := milp_arguments decision_variables in
  print [PStr "Decision Variables Lower Bounds:";
         PInts (map (fun _ => 0%Z) (seq 0 (length decision_variables)))] ;;;
  print [PStr "Decision Variables Lower Bounds:";
         PInts (map (fun _ => 1%Z) (seq 0 (length decision_variables)))] ;;;
  print [PStr "Integrality: "; PInts (SciPy.integrality P)] ;;;
  ret P.

Definition x1_decision_var : Py.dict PuLP.LpVariable :=
  PuLP.LpVariable_dicts "x1" (Item_Name it) (Some 0) (Some 1) PuLP.LpBinary.

Definition weights : Py.dict Q :=
  Py.dict_zip (Item_Name it) (Weight_kg it).

Definition relative_values : Py.dict Z :=
  Py.dict_zip (Item_Name it) (Relative_Value it).

(** [[coef[i] * x1_decision_var[i] for i in names]], left to right. *)
Fixpoint terms {V} (inj : V -> Q) (coef : Py.dict V) (names : list string)
  : Py.exn + PuLP.LpAffineExpression :=
  match names with
  | [] => inr []
  | i :: names' =>
      match getitem coef i with
      | inl e => inl e
      | inr a =>
          match getitem x1_decision_var i with
          | inl e => inl e
          | inr _ =>
              match terms inj coef names' with
              | inl e => inl e
              | inr ts => inr ((inj a, i) :: ts)
              end
          end
      end
  end.

Definition cell7 : M PuLP.LpProblem :=
  let prob := PuLP.new_problem "knapsack_pulp" PuLP.LpMaximize in
  obj <- lift (terms inject_Z relative_values (Item_Name it)) ;;
  let prob := PuLP.set_objective prob obj in
  con <- lift (terms (fun w => w) weights (Item_Name it)) ;;
  ret (PuLP.add_constraint prob
         {| PuLP.lhs := con; PuLP.rhs := inject_Z capacity |}).

(** The PuLP problem cell 7 builds when every lookup succeeds on the
    entry of the same position. *)
Definition positional_problem : PuLP.LpProblem :=
  {| PuLP.prob_name := "knapsack_pulp";
     PuLP.sense := PuLP.LpMaximize;
     PuLP.objective := zip (map inject_Z (Relative_Value it)) (Item_Name it);
     PuLP.constraints :=
       [ {| PuLP.lhs := zip (Weight_kg it) (Item_Name it);
            PuLP.rhs := inject_Z capacity |} ] |}.


End Table.

End Generic.


(** A third: the value of the second row is missing. *)
Definition short_items : Items := {|
  Item_Id := [1; 2]%Z;
  Item_Name := ["Map"; "Rope"]%string;
  Weight_kg := [1.0; 3.0];
  Relative_Value := [2]%Z
|}.



(** * Lemmas *)

(** ** Ordered dictionaries *)

Section Dict.
Context {V : Type}.
Implicit Types (d : Py.dict V) (k : string) (v : V).

Lemma get_set_eq d k v : Py.get (Py.set d k v) k = Some v.
Proof.
  induction d as [|[k' v'] d IH]; simpl.
  - now rewrite String.eqb_refl.
  - destruct (String.eqb k' k) eqn:E; simpl; rewrite E; auto.
Qed.

Lemma get_set_ne d k k' v : k <> k' -> Py.get (Py.set d k v) k' = Py.get d k'.
Proof.
  intros Hne. induction d as [|[k0 v0] d IH]; simpl.
  - destruct (String.eqb k k') eqn:E; auto.
    apply String.eqb_eq in E. contradiction.
  - destruct (String.eqb k0 k) eqn:E; simpl.
    + apply String.eqb_eq in E. subst k0.
      destruct (String.eqb k k') eqn:E'; auto.
      apply String.eqb_eq in E'. contradiction.
    + now rewrite IH.
Qed.


Lemma get_fold_set_notin (kvs : list (string * V)) d k :
  k ∉ map fst kvs ->
  Py.get (fold_left (fun d kv => Py.set d (fst kv) (snd kv)) kvs d) k = Py.get d k.
Proof.
  revert d. induction kvs as [|[k' v'] kvs IH]; intros d Hk; simpl; auto.
  rewrite IH.
  - apply get_set_ne. intros ->. apply Hk. simpl. left.
  - intros Hin. apply Hk. simpl. now right.
Qed.

(** With distinct keys, [dict(zip(ks, vs))[ks[i]]] is [vs[i]]. *)
Lemma get_dict_zip (ks : list string) (vs : list V) i k v :
  NoDup ks -> ks !! i = Some k -> vs !! i = Some v ->
  Py.get (Py.dict_zip ks vs) k = Some v.
Proof.
  unfold Py.dict_zip. generalize (@nil (string * V)) as d.
  revert vs i. induction ks as [|k0 ks IH]; intros vs i d Hnd Hk Hv.
  - destruct i; discriminate.
  - destruct vs as [|v0 vs]; [destruct i; discriminate|].
    apply NoDup_cons in Hnd as [Hnotin Hnd].
    destruct i as [|i]; simpl in *.
    + injection Hk as <-. injection Hv as <-.
      rewrite get_fold_set_notin; [apply get_set_eq|].
      intros Hin. apply Hnotin.
      apply list_elem_of_fmap in Hin as [[k1 v1] [-> Hin]].
      apply elem_of_zip_l in Hin. exact Hin.
    + eapply IH; eauto.
Qed.

End Dict.

(** ** Sums and dot products *)

Lemma sum_acc (l : list Q) (a : Q) : fold_left Qplus l a == a + Py.sum l.
Proof.
  unfold Py.sum. revert a. induction l as [|q l IH]; intros a; simpl.
  - ring.
  - rewrite (IH (a + q)), (IH (0 + q)). ring.
Qed.

Lemma dot_nil_l (x : list Q) : dot [] x = 0.
Proof. reflexivity. Qed.

Lemma dot_nil_r (a : list Q) : dot a [] = 0.
Proof. destruct a; reflexivity. Qed.

Lemma dot_cons (a : Q) (l : list Q) (v : Q) (x : list Q) :
  dot (a :: l) (v :: x) == a * v + dot l x.
Proof.
  unfold dot, Py.sum. simpl. rewrite sum_acc. unfold Py.sum. ring.
Qed.

(** The dot product does not see which fraction represents a number. *)
Lemma dot_Qeq (a x y : list Q) : Forall2 Qeq x y -> dot a x == dot a y.
Proof.
  intros H. revert a. induction H as [|v w x y Hvw Hxy IH]; intros a.
  - reflexivity.
  - destruct a as [|q a]; [reflexivity|].
    rewrite !dot_cons, Hvw, (IH a). reflexivity.
Qed.

Lemma dot_nonneg (a x : list Q) :
  Forall (Qle 0) a -> Forall (Qle 0) x -> 0 <= dot a x.
Proof.
  intros Ha. revert x. induction Ha as [|q a Hq Ha IH]; intros x Hx.
  - rewrite dot_nil_l. apply Qle_refl.
  - destruct Hx as [|v x Hv Hx]; [rewrite dot_nil_r; apply Qle_refl|].
    rewrite dot_cons.
    assert (0 <= q * v) by (apply Qmult_le_0_compat; assumption).
    specialize (IH x Hx).
    apply (Qplus_le_compat 0 (q * v) 0 (dot a x)) in IH; [|assumption].
    now rewrite Qplus_0_l in IH.
Qed.

(** ** Binary vectors and boolean selections *)

Lemma bits_length (b : list bool) : length (bits b) = length b.
Proof. apply length_map. Qed.

Lemma bits_binary (b : list bool) : binary_vector (bits b).
Proof.
  induction b as [|[|] b IH]; constructor; auto; [right|left]; reflexivity.
Qed.

(** Every binary float vector is, entry by entry, a boolean selection. *)
Lemma binary_vector_bits (x : list Q) :
  binary_vector x ->
  exists b, length b = length x /\ Forall2 Qeq x (bits b).
Proof.
  induction 1 as [|v x Hv Hx (b & Hlen & Hb)].
  - exists []. split; [reflexivity|constructor].
  - destruct Hv as [Hv|Hv].
    + exists (false :: b). split; [simpl; congruence|now constructor].
    + exists (true :: b). split; [simpl; congruence|now constructor].
Qed.

Lemma all_selections_complete (b : list bool) : In b (all_selections (length b)).
Proof.
  induction b as [|t b IH]; simpl; [now left|].
  apply in_or_app. destruct t; [right|left]; now apply in_map.
Qed.

Lemma binary_Qeq (x y : list Q) :
  Forall2 Qeq x y -> binary_vector y -> binary_vector x.
Proof.
  induction 1 as [|v w x y Hvw Hxy IH]; intros Hy; [constructor|].
  apply Forall_cons in Hy as [Hw Hy].
  apply Forall_cons. split; [|apply IH, Hy].
  destruct Hw as [Hw|Hw]; [left|right]; rewrite Hvw; exact Hw.
Qed.

(** ** The search itself *)

(** All 128 selections pass at capacity 5. *)
Lemma search_capacity_5 :
  forallb (passes (inject_Z knapsack_capacity)) (all_selections 7) = true.
Proof. vm_compute. reflexivity. Qed.

Lemma passes_sound (cap : Q) (b : list bool) :
  passes cap b = true ->
  total_weight (bits b) <= cap ->
  total_value (bits b) <= 23 /\ (total_value (bits b) == 23 -> b = best).
Proof.
  unfold passes. intros Hp Hw.
  apply Qle_bool_iff in Hw. rewrite Hw in Hp. simpl in Hp.
  apply andb_true_iff in Hp as [Hv Hu].
  split; [now apply Qle_bool_iff|].
  intros H23. apply Qeq_bool_iff in H23. rewrite H23 in Hu. simpl in Hu.
  now apply bool_decide_eq_true in Hu.
Qed.

(** The knapsack facts, for float vectors: within the capacity no
    binary vector is worth more than 23, and only the recorded selection
    is worth 23. *)
Lemma knapsack_bound (x : list Q) :
  length x = 7%nat -> binary_vector x ->
  total_weight x <= inject_Z knapsack_capacity ->
  total_value x <= 23 /\ (total_value x == 23 -> Forall2 Qeq x selection).
Proof.
  intros Hlen Hbin Hw.
  destruct (binary_vector_bits x Hbin) as (b & Hb & Hxb).
  assert (Hp : passes (inject_Z knapsack_capacity) b = true).
  { pose proof search_capacity_5 as Hall.
    rewrite forallb_forall in Hall. apply Hall.
    replace 7%nat with (length b) by congruence.
    apply all_selections_complete. }
  assert (Hwq : total_weight x == total_weight (bits b)) by now apply dot_Qeq.
  assert (Hvq : total_value x == total_value (bits b)) by now apply dot_Qeq.
  rewrite Hwq in Hw. rewrite Hvq.
  destruct (passes_sound _ _ Hp Hw) as [Hv Hu].
  split; [exact Hv|].
  intros H23. apply Hu in H23. subst b. exact Hxb.
Qed.

(** ** The variable box: bounds 0 and 1 plus integrality *)

Lemma integer_in_unit (v : Q) : is_integer v -> 0 <= v -> v <= 1 -> v == 0 \/ v == 1.
Proof.
  intros [z Hz] H0 H1. rewrite Hz in H0, H1 |- *.
  change 0 with (inject_Z 0) in *. change 1 with (inject_Z 1) in *.
  rewrite <- Zle_Qle in H0, H1.
  assert (z = 0 \/ z = 1)%Z as [->| ->] by lia; [left|right]; reflexivity.
Qed.

Lemma binary_unit (v : Q) :
  v == 0 \/ v == 1 -> 0 <= v /\ v <= 1 /\ is_integer v.
Proof.
  intros [H|H]; (split; [|split]); try (rewrite H; discriminate);
    [exists 0%Z|exists 1%Z]; exact H.
Qed.

Lemma Forall2_repeat_l {X Y} (P : X -> Y -> Prop) (a : X) (x : list Y) :
  Forall (P a) x -> Forall2 P (repeat a (length x)) x.
Proof. induction 1; simpl; constructor; auto. Qed.

Lemma Forall2_repeat_r {X Y} (P : Y -> X -> Prop) (a : X) (x : list Y) :
  Forall (fun v => P v a) x -> Forall2 P x (repeat a (length x)).
Proof. induction 1; simpl; constructor; auto. Qed.

Lemma Forall2_repeat_l_inv {X Y} (P : X -> Y -> Prop) (a : X) n (x : list Y) :
  Forall2 P (repeat a n) x -> Forall (P a) x.
Proof.
  revert n. induction x as [|v x IH]; intros n H; [constructor|].
  destruct n as [|n]; simpl in H; [apply Forall2_nil_cons_inv in H; contradiction|].
  apply Forall2_cons_1 in H as [Hv H]. constructor; eauto.
Qed.

Lemma Forall2_repeat_r_inv {X Y} (P : Y -> X -> Prop) (a : X) n (x : list Y) :
  Forall2 P x (repeat a n) -> Forall (fun v => P v a) x.
Proof.
  revert n. induction x as [|v x IH]; intros n H; [constructor|].
  destruct n as [|n]; simpl in H; [apply Forall2_cons_nil_inv in H; contradiction|].
  apply Forall2_cons_1 in H as [Hv H]. constructor; eauto.
Qed.

Lemma binary_nonneg (x : list Q) : binary_vector x -> Forall (Qle 0) x.
Proof.
  intros H. eapply Forall_impl; [exact H|].
  intros v Hv. now apply binary_unit in Hv as (? & ? & ?).
Qed.

(** ** The SciPy program *)

Lemma scipy_model_c :
  SciPy.c scipy_model = map Qopp (map inject_Z (Relative_Value items)).
Proof. reflexivity. Qed.

Lemma scipy_model_bounds :
  SciPy.bounds scipy_model = {| SciPy.lb := repeat 0 7; SciPy.ub := repeat 1 7 |}.
Proof. reflexivity. Qed.

Lemma scipy_model_integrality : SciPy.integrality scipy_model = repeat 1%Z 7.
Proof. reflexivity. Qed.

Lemma scipy_model_constraints :
  SciPy.constraints scipy_model =
  {| SciPy.A := Weight_kg items;
     SciPy.con_lb := Some 0;
     SciPy.con_ub := Some (inject_Z knapsack_capacity) |}.
Proof. reflexivity. Qed.

Lemma weights_nonneg : Forall (Qle 0) (Weight_kg items).
Proof. repeat constructor; discriminate. Qed.

(** Within the variable bounds the weighted sum cannot be negative. *)
Lemma weight_nonneg_in_bounds (x : list Q) :
  SciPy.within_bounds scipy_model x -> 0 <= total_weight x.
Proof.
  intros [Hlb _]. rewrite scipy_model_bounds in Hlb. cbn [SciPy.lb] in Hlb.
  apply Forall2_repeat_l_inv in Hlb.
  apply dot_nonneg; [apply weights_nonneg|exact Hlb].
Qed.

Lemma scipy_box_binary (x : list Q) :
  SciPy.within_bounds scipy_model x ->
  Forall2 SciPy.integral (SciPy.integrality scipy_model) x ->
  binary_vector x.
Proof.
  intros [Hlb Hub] Hint.
  rewrite scipy_model_bounds in Hlb, Hub. cbn [SciPy.lb SciPy.ub] in Hlb, Hub.
  rewrite scipy_model_integrality in Hint.
  apply Forall2_repeat_l_inv in Hlb, Hint. apply Forall2_repeat_r_inv in Hub.
  unfold binary_vector. rewrite Forall_forall in *.
  intros v Hv. apply integer_in_unit; auto. exact (Hint v Hv).
Qed.

Lemma scipy_feasible_iff (x : list Q) :
  SciPy.feasible scipy_model x <->
  length x = 7%nat /\ binary_vector x /\
  total_weight x <= inject_Z knapsack_capacity.
Proof.
  unfold SciPy.feasible. rewrite scipy_model_constraints.
  cbn [SciPy.A SciPy.con_lb SciPy.con_ub above below].
  change (dot (Weight_kg items) x) with (total_weight x).
  change (length (SciPy.c scipy_model)) with 7%nat.
  split.
  - intros (Hlen & Hbox & Hint & _ & Hub).
    split; [exact Hlen|]. split; [|exact Hub].
    now apply scipy_box_binary.
  - intros (Hlen & Hbin & Hw).
    assert (Hbox : SciPy.within_bounds scipy_model x).
    { unfold SciPy.within_bounds. rewrite scipy_model_bounds.
      cbn [SciPy.lb SciPy.ub].
      rewrite <- Hlen. split.
      - apply Forall2_repeat_l. now apply binary_nonneg.
      - apply Forall2_repeat_r. eapply Forall_impl; [exact Hbin|].
        intros v Hv. now apply binary_unit in Hv as (? & ? & ?). }
    split; [exact Hlen|]. split; [exact Hbox|]. split; [|split].
    + rewrite scipy_model_integrality, <- Hlen. apply Forall2_repeat_l.
      eapply Forall_impl; [exact Hbin|].
      intros v Hv. now apply binary_unit in Hv as (? & ? & ?).
    + now apply weight_nonneg_in_bounds.
    + exact Hw.
Qed.

Lemma dot_opp (a x : list Q) : dot (map Qopp a) x == - dot a x.
Proof.
  revert x. induction a as [|q a IH]; intros x; [reflexivity|].
  destruct x as [|v x]; [reflexivity|].
  simpl map. rewrite !dot_cons, IH. ring.
Qed.

(** The SciPy objective is the negated total value. *)
Lemma scipy_objective_neg (x : list Q) :
  SciPy.objective scipy_model x == - total_value x.
Proof. unfold SciPy.objective. rewrite scipy_model_c. apply dot_opp. Qed.

(** ** The PuLP program *)

Lemma x1_decision_var_keys : Py.keys Notebook.x1_decision_var = Item_Name items.
Proof. reflexivity. Qed.

Lemma x1_decision_var_declared :
  Forall declared_binary (map snd Notebook.x1_decision_var).
Proof. repeat constructor. Qed.

Lemma item_names_distinct : NoDup (Item_Name items).
Proof.
  refine (bool_decide_unpack (NoDup (Item_Name items)) _).
  vm_compute. exact I.
Qed.

Lemma var_ok_binary (v : PuLP.LpVariable) (xv : Q) :
  declared_binary v -> (PuLP.var_ok v xv <-> xv == 0 \/ xv == 1).
Proof.
  intros (Hl & Hu & Hc). unfold PuLP.var_ok. rewrite Hl, Hu, Hc. simpl.
  split.
  - intros (H0 & H1 & Hi & _). now apply integer_in_unit.
  - intros H. apply binary_unit in H as (? & ? & ?). tauto.
Qed.

Lemma vars_ok_binary (vs : list PuLP.LpVariable) (x : list Q) :
  Forall declared_binary vs ->
  (Forall2 PuLP.var_ok vs x <-> length x = length vs /\ binary_vector x).
Proof.
  intros Hd. revert x. induction Hd as [|v vs Hv Hd IH]; intros x.
  - split.
    + intros H. apply Forall2_nil_inv_l in H. subst. split; [reflexivity|constructor].
    + intros [Hlen _]. destruct x; [constructor|discriminate].
  - destruct x as [|xv x].
    + split; [intros H; apply Forall2_cons_nil_inv in H; contradiction|].
      intros [Hlen _]. discriminate.
    + rewrite Forall2_cons, (IH x), (var_ok_binary v xv Hv).
      unfold binary_vector. rewrite Forall_cons. simpl. intuition congruence.
Qed.

(** Evaluating a sum of [coef[i] * var[i]] under an assignment that
    gives the i-th variable the i-th entry of [x] is the dot product. *)
Lemma value_zip (a : list Q) (ks : list string) (x : list Q)
    (val : string -> option Q) :
  length a = length ks -> length ks = length x ->
  (forall i k, ks !! i = Some k -> val k = x !! i) ->
  exists s, PuLP.value (zip a ks) val = Some s /\ s == dot a x.
Proof.
  revert ks x. induction a as [|q a IH]; intros ks x Hak Hkx Hval.
  - exists 0. split; reflexivity.
  - destruct ks as [|k ks]; [discriminate|].
    destruct x as [|v x]; [discriminate|].
    destruct (IH ks x) as (s & Hs & Hsd).
    + simpl in Hak. lia.
    + simpl in Hkx. lia.
    + intros i k' Hk'. exact (Hval (S i) k' Hk').
    + exists (q * v + s). split.
      * simpl. rewrite (Hval 0%nat k eq_refl), Hs. reflexivity.
      * rewrite dot_cons, Hsd. reflexivity.
Qed.

(** With the seven distinct names as keys, the assignment built from a
    value vector is positional. *)
Lemma assignment_positional (x : list Q) i k :
  length x = 7%nat -> Item_Name items !! i = Some k ->
  PuLP.assignment Notebook.x1_decision_var x k = x !! i.
Proof.
  intros Hlen Hk. unfold PuLP.assignment. rewrite x1_decision_var_keys.
  assert (Hi : (i < length x)%nat).
  { rewrite Hlen. apply lookup_lt_Some in Hk. exact Hk. }
  apply lookup_lt_is_Some in Hi as [v Hv]. rewrite Hv.
  eapply get_dict_zip; eauto using item_names_distinct.
Qed.

Lemma pulp_constraint_value (x : list Q) :
  length x = 7%nat ->
  exists s, PuLP.value (zip (Weight_kg items) (Item_Name items))
              (PuLP.assignment Notebook.x1_decision_var x) = Some s
            /\ s == total_weight x.
Proof.
  intros Hlen. apply value_zip; [reflexivity|now rewrite Hlen|].
  intros i k. now apply assignment_positional.
Qed.

Lemma pulp_objective_value (x : list Q) :
  length x = 7%nat ->
  exists s, PuLP.objective_value Notebook.x1_decision_var pulp_model x = Some s
            /\ s == total_value x.
Proof.
  intros Hlen. apply value_zip; [reflexivity|now rewrite Hlen|].
  intros i k. now apply assignment_positional.
Qed.

Lemma pulp_feasible_iff (x : list Q) :
  PuLP.feasible Notebook.x1_decision_var pulp_model x <->
  length x = 7%nat /\ binary_vector x /\
  total_weight x <= inject_Z knapsack_capacity.
Proof.
  unfold PuLP.feasible.
  rewrite (vars_ok_binary _ x x1_decision_var_declared).
  change (length Notebook.x1_decision_var) with 7%nat.
  change (length (map snd Notebook.x1_decision_var)) with 7%nat.
  change (PuLP.constraints pulp_model)
    with [ {| PuLP.lhs := zip (Weight_kg items) (Item_Name items);
              PuLP.rhs := inject_Z knapsack_capacity |} ].
  rewrite Forall_singleton. unfold PuLP.constraint_ok. cbn [PuLP.lhs PuLP.rhs].
  split.
  - intros (Hlen & (_ & Hbin) & (s & Hs & Hle)).
    destruct (pulp_constraint_value x Hlen) as (s' & Hs' & Heq).
    rewrite Hs in Hs'. injection Hs' as <-.
    rewrite <- Heq. auto.
  - intros (Hlen & Hbin & Hw).
    destruct (pulp_constraint_value x Hlen) as (s & Hs & Heq).
    repeat split; auto. exists s. split; [exact Hs|]. now rewrite Heq.
Qed.

(** ** Optimal solutions of both programs *)

Lemma scipy_feasible_fits (x : list Q) : SciPy.feasible scipy_model x <-> fits x.
Proof. apply scipy_feasible_iff. Qed.

Lemma pulp_feasible_fits (x : list Q) :
  PuLP.feasible Notebook.x1_decision_var pulp_model x <-> fits x.
Proof. apply pulp_feasible_iff. Qed.

Lemma selection_value : total_value selection == 23.
Proof. reflexivity. Qed.

Lemma selection_weight : total_weight selection == 4.5.
Proof. reflexivity. Qed.

Lemma selection_fits : fits selection.
Proof.
  split; [reflexivity|]. split; [apply (bits_binary best)|].
  rewrite selection_weight. discriminate.
Qed.

Lemma fits_Qeq (x y : list Q) : Forall2 Qeq x y -> fits y -> fits x.
Proof.
  intros Hxy (Hlen & Hbin & Hw). split; [|split].
  - rewrite <- Hlen. eapply Forall2_length; eauto.
  - eapply binary_Qeq; eauto.
  - unfold total_weight in *. now rewrite (dot_Qeq _ _ _ Hxy).
Qed.

Lemma fits_value_le (x : list Q) : fits x -> total_value x <= 23.
Proof. intros (Hlen & Hbin & Hw). now apply knapsack_bound. Qed.

(** A fitting vector is worth 23 exactly when it is the recorded
    selection. *)
Lemma fits_value_23 (x : list Q) :
  fits x -> (total_value x == 23 <-> Forall2 Qeq x selection).
Proof.
  intros Hfit. split.
  - destruct Hfit as (Hlen & Hbin & Hw). now apply knapsack_bound.
  - intros Hx. unfold total_value. rewrite (dot_Qeq _ _ _ Hx). reflexivity.
Qed.

Lemma scipy_optimal_iff (x : list Q) :
  SciPy.optimal scipy_model x <-> Forall2 Qeq x selection.
Proof.
  unfold SciPy.optimal. split.
  - intros [Hf Hopt]. apply scipy_feasible_fits in Hf.
    apply fits_value_23; [exact Hf|].
    apply Qle_antisym; [now apply fits_value_le|].
    specialize (Hopt selection (proj2 (scipy_feasible_fits _) selection_fits)).
    rewrite !scipy_objective_neg, selection_value in Hopt.
    apply Qopp_le_compat in Hopt. now rewrite !Qopp_involutive in Hopt.
  - intros Hx.
    assert (Hfit : fits x) by (eapply fits_Qeq; eauto using selection_fits).
    split; [now apply scipy_feasible_fits|].
    intros y Hy. apply scipy_feasible_fits in Hy.
    rewrite !scipy_objective_neg. apply Qopp_le_compat.
    rewrite (proj2 (fits_value_23 x Hfit) Hx). now apply fits_value_le.
Qed.

Lemma pulp_optimal_iff (x : list Q) :
  PuLP.optimal Notebook.x1_decision_var pulp_model x <-> Forall2 Qeq x selection.
Proof.
  unfold PuLP.optimal. split.
  - intros [Hf (v & Hv & Hopt)]. apply pulp_feasible_fits in Hf.
    destruct (pulp_objective_value x (proj1 Hf)) as (s & Hs & Hsv).
    rewrite Hv in Hs. injection Hs as <-.
    destruct (pulp_objective_value selection eq_refl) as (w & Hw & Hwv).
    specialize (Hopt selection w (proj2 (pulp_feasible_fits _) selection_fits) Hw).
    simpl in Hopt. rewrite Hwv, selection_value, Hsv in Hopt.
    apply fits_value_23; [exact Hf|].
    apply Qle_antisym; [now apply fits_value_le|exact Hopt].
  - intros Hx.
    assert (Hfit : fits x) by (eapply fits_Qeq; eauto using selection_fits).
    split; [now apply pulp_feasible_fits|].
    destruct (pulp_objective_value x (proj1 Hfit)) as (s & Hs & Hsv).
    exists s. split; [exact Hs|].
    intros y w Hy Hw. apply pulp_feasible_fits in Hy.
    destruct (pulp_objective_value y (proj1 Hy)) as (w' & Hw' & Hwv).
    rewrite Hw in Hw'. injection Hw' as <-.
    simpl. rewrite Hwv, Hsv, (proj2 (fits_value_23 x Hfit) Hx).
    now apply fits_value_le.
Qed.

(** ** The boolean columns *)

Lemma select_Qeq (v w : Q) : v == w -> Notebook.select v = Notebook.select w.
Proof. intros H. unfold Notebook.select. now rewrite H. Qed.

Lemma select_true (v : Q) : Notebook.select v = true <-> v == 1.
Proof.
  unfold Notebook.select. destruct (Qeq_bool v 1) eqn:E.
  - apply Qeq_bool_iff in E. tauto.
  - split; [discriminate|]. intros H. apply Qeq_bool_iff in H. congruence.
Qed.

Lemma select_opt_Some (v : Q) : Notebook.select_opt (Some v) = Notebook.select v.
Proof. reflexivity. Qed.

Lemma scipy_column_Qeq (x y : list Q) :
  Forall2 Qeq x y ->
  Notebook.scipy_items_to_select x = Notebook.scipy_items_to_select y.
Proof.
  unfold Notebook.scipy_items_to_select.
  induction 1 as [|v w x y Hvw Hxy IH]; simpl; [reflexivity|].
  now rewrite IH, (select_Qeq v w Hvw).
Qed.

Lemma pulp_column_Some (x : list Q) :
  Notebook.pulp_items_to_select (map Some x) = Notebook.scipy_items_to_select x.
Proof.
  unfold Notebook.pulp_items_to_select, Notebook.scipy_items_to_select.
  rewrite map_map. reflexivity.
Qed.

(** ** Running the cells *)

Lemma cell2_runs :
  Notebook.cell2 =
  ([Notebook.Printed [Notebook.PFrame (items_dict items)]], inr (items_dict items)).
Proof. reflexivity. Qed.

(** Cell 3 prints four lines and hands [scipy_model] to [milp]. *)
Lemma cell3_runs :
  Notebook.cell3 =
  ([ Notebook.Printed [Notebook.PStr "Decision Variables:";
                       Notebook.PInts [-6; -5; -4; -4; -3; -4; -1]%Z];
     Notebook.Printed [Notebook.PStr "Decision Variables Lower Bounds:";
                       Notebook.PInts [0; 0; 0; 0; 0; 0; 0]%Z];
     Notebook.Printed [Notebook.PStr "Decision Variables Lower Bounds:";
                       Notebook.PInts [1; 1; 1; 1; 1; 1; 1]%Z];
     Notebook.Printed [Notebook.PStr "Integrality: ";
                       Notebook.PInts [1; 1; 1; 1; 1; 1; 1]%Z] ],
   inr scipy_model).
Proof. reflexivity. Qed.

(** Cell 7 leaves [pulp_model] in [prob], silently. *)
Lemma cell7_builds : Notebook.cell7 = ([], inr pulp_model).
Proof. reflexivity. Qed.

Lemma setitem_inv (d : Pandas.DataFrame) k c d' :
  Pandas.setitem d k c = inr d' ->
  d' = Py.set d k c /\ Pandas.col_len c = Pandas.nrows d.
Proof.
  unfold Pandas.setitem.
  destruct (Nat.eqb (Pandas.col_len c) (Pandas.nrows d)) eqn:E; [|discriminate].
  intros [= <-]. split; [reflexivity|now apply Nat.eqb_eq].
Qed.

Lemma setitem_ok (d : Pandas.DataFrame) k c :
  Pandas.col_len c = Pandas.nrows d -> Pandas.setitem d k c = inr (Py.set d k c).
Proof.
  intros H. unfold Pandas.setitem.
  apply Nat.eqb_eq in H. now rewrite H.
Qed.

Lemma np_mul_defined {X} (mul : X -> X -> X) (a b : list X) :
  length a = length b -> exists l, Py.np_mul mul a b = inr l.
Proof.
  intros H. unfold Py.np_mul.
  destruct a as [|x [|x' a]]; destruct b as [|y [|y' b]]; try discriminate; eauto.
  apply Nat.eqb_eq in H. rewrite H. eauto.
Qed.

(** Unfold a run down to the tests its cells make. *)
Ltac run_unfold :=
  unfold Notebook.run_all;
  rewrite cell2_runs, cell3_runs, cell7_builds;
  unfold Notebook.cell4, Notebook.cell5, Notebook.cell6,
         Notebook.cell8, Notebook.cell9, Notebook.cell10;
  unfold Notebook.bind, Notebook.call, Notebook.lift, Notebook.print,
         Notebook.display, Notebook.ret, Notebook.raise;
  cbv beta iota.

(** Follow the branch a hypothesis decides. *)
Ltac run_step :=
  match goal with
  | H : ?t = _ |- context [match ?t with _ => _ end] => rewrite H; cbv beta iota
  end.

(** Split on every test that is left. *)
Ltac run_split :=
  repeat match goal with
         | |- context [match ?t with _ => _ end] =>
             lazymatch t with
             | context [match _ with _ => _ end] => fail
             | _ => destruct t eqn:?
             end
         end;
  cbn [fst snd app].

Ltac run_cases := run_unfold; repeat run_step; run_split.

(** The two assignments of the result cells, on frames of seven rows. *)
Ltac frame_steps :=
  repeat match goal with
         | H : Pandas.setitem _ _ _ = inr _ |- _ =>
             apply setitem_inv in H; destruct H as [-> ?]
         end.

Section RunFacts.
Import Notebook.
Variable milp : SciPy.Problem -> Py.exn + SciPy.OptimizeResult.
Variable solve : Py.dict PuLP.LpVariable -> PuLP.LpProblem
                 -> Py.exn + PuLP.Solution.

(** What a completed run leaves behind. *)
Lemma run_all_final g :
  snd (run_all milp solve) = inr g ->
  exists x s,
    milp scipy_model = inr (sol g) /\ SciPy.x (sol g) = Some x /\
    length x = 7%nat /\
    solve x1_decision_var pulp_model = inr s /\
    results g = PuLP.status s /\
    pulp_decision_var_results g = map (PuLP.varValue s) (Py.keys x1_decision_var) /\
    df g = items_dict items ++
           [ ("scipy_items_to_select"%string,
              Pandas.BoolCol (scipy_items_to_select x));
             ("pulp_items_to_select"%string,
              Pandas.BoolCol (pulp_items_to_select (pulp_decision_var_results g))) ].
Proof.
  run_cases; try discriminate.
  intros [= <-]. cbn [df sol results pulp_decision_var_results].
  frame_steps.
  match goal with
  | H : Pandas.col_len (Pandas.BoolCol (scipy_items_to_select ?l)) = _ |- _ =>
      exists l; cbn in H; unfold scipy_items_to_select in H;
      rewrite length_map in H
  end.
  eexists. repeat (split; [eassumption || reflexivity|]).
  reflexivity.
Qed.

(** Every frame a run shows still begins with the four columns of
    [items]; the first frame shown is the table as constructed. *)
Lemma run_all_frames :
  Forall keeps_items (frames (fst (run_all milp solve))) /\
  frames (fst (run_all milp solve)) !! 0%nat = Some (items_dict items).
Proof.
  run_cases; frame_steps; cbn; (split; [|reflexivity]);
    repeat match goal with
           | |- Forall _ [] => constructor
           | |- Forall _ (_ :: _) => constructor
           end.
  all: first
    [ exists []; split; [symmetry; apply app_nil_r|constructor]
    | eexists [_]; split; [reflexivity|];
      repeat constructor; cbn; eauto
    | eexists [_; _]; split; [reflexivity|];
      repeat match goal with
             | |- Forall _ _ => constructor
             | |- solution_column _ => split; cbn; eauto
             end ].
Qed.

(** An exception raised by [milp] ends the run as that exception,
    before PuLP is reached. *)
Lemma run_all_milp_raises e :
  milp scipy_model = inl e ->
  snd (run_all milp solve) = inl e /\ calls "solve" (fst (run_all milp solve)) = 0%nat.
Proof. intros H. run_cases. split; reflexivity. Qed.

(** Whatever [milp] returns is printed as it is, whatever its status. *)
Lemma run_all_prints_result r :
  milp scipy_model = inr r ->
  In (Printed [PResult r]) (fst (run_all milp solve)).
Proof. intros H. run_cases; cbn; tauto. Qed.

(** A result without a solution vector is not recovered from: the next
    cell fails on it and PuLP is never reached. *)
Lemma run_all_no_solution r :
  milp scipy_model = inr r -> SciPy.x r = None ->
  snd (run_all milp solve) = inl (Py.TypeError "unsupported operand type(s) for *")
  /\ calls "solve" (fst (run_all milp solve)) = 0%nat.
Proof. intros H Hx. run_cases. split; reflexivity. Qed.

(** The first result cell goes through on a solution vector of seven
    entries. *)
Lemma scipy_column_added (x : list Q) :
  length x = 7%nat ->
  Pandas.setitem (items_dict items) "scipy_items_to_select"
    (Pandas.BoolCol (scipy_items_to_select x))
  = inr (items_dict items ++
         [("scipy_items_to_select"%string,
           Pandas.BoolCol (scipy_items_to_select x))]).
Proof.
  intros Hlen. rewrite setitem_ok; [reflexivity|].
  cbn. unfold scipy_items_to_select. now rewrite length_map.
Qed.

(** Once the SciPy part has gone through, an exception raised by the
    PuLP solve ends the run as that exception. *)
Lemma run_all_solve_raises r x e :
  milp scipy_model = inr r -> SciPy.x r = Some x -> length x = 7%nat ->
  solve x1_decision_var pulp_model = inl e ->
  snd (run_all milp solve) = inl e.
Proof.
  intros H Hx Hlen He.
  destruct (np_mul_defined Qmult x (Weight_kg items) Hlen) as [w Hw].
  pose proof (scipy_column_added x Hlen) as Hset.
  run_cases. reflexivity.
Qed.

(** ... and the status it returns is printed through [LpStatus],
    together with [prob.sol_status]; a code outside the table is a
    [KeyError] of that lookup. *)
Lemma run_all_prints_status r x s :
  milp scipy_model = inr r -> SciPy.x r = Some x -> length x = 7%nat ->
  solve x1_decision_var pulp_model = inr s ->
  match PuLP.LpStatus (PuLP.status s) with
  | Some text =>
      In (Printed [PStr "Solution Status:"; PStr text; PInt (PuLP.sol_status s)])
         (fst (run_all milp solve))
  | None => snd (run_all milp solve) = inl (Py.KeyError "LpStatus")
  end.
Proof.
  intros H Hx Hlen Hs.
  destruct (np_mul_defined Qmult x (Weight_kg items) Hlen) as [w Hw].
  pose proof (scipy_column_added x Hlen) as Hset.
  destruct (PuLP.LpStatus (PuLP.status s)) as [text|] eqn:Hst.
  - run_cases; cbn; tauto.
  - run_cases. reflexivity.
Qed.

(** Each solver entry point is called at most once; [milp] exactly once. *)
Lemma run_all_calls :
  calls "milp" (fst (run_all milp solve)) = 1%nat /\
  (calls "solve" (fst (run_all milp solve)) <= 1)%nat.
Proof. run_cases; cbn; split; lia. Qed.

(** With solvers that return optimal solutions, the run completes and
    both added columns are the recorded selection. *)
Lemma run_all_columns :
  milp_returns_optimum milp -> solve_returns_optimum solve ->
  exists g, snd (run_all milp solve) = inr g /\
    df g = items_dict items ++
           [ ("scipy_items_to_select"%string, Pandas.BoolCol best);
             ("pulp_items_to_select"%string, Pandas.BoolCol best) ].
Proof.
  intros (r & x & Hr & Hx & Hopt) (s & xp & Hs & Hst & Hv & Hoptp).
  apply scipy_optimal_iff in Hopt. apply pulp_optimal_iff in Hoptp.
  assert (Hlen : length x = 7%nat) by (apply Forall2_length in Hopt; exact Hopt).
  assert (Hcol : scipy_items_to_select x = best) by (apply (scipy_column_Qeq _ _ Hopt)).
  assert (Hcolp : pulp_items_to_select (map Some xp) = best).
  { rewrite pulp_column_Some. apply (scipy_column_Qeq _ _ Hoptp). }
  destruct (np_mul_defined Qmult x (Weight_kg items) Hlen) as [w Hw].
  pose proof (scipy_column_added x Hlen) as Hset.
  destruct (PuLP.LpStatus (PuLP.status s)) as [text|] eqn:Htext; [|congruence].
  run_unfold. repeat run_step. rewrite Hv, Hcolp, Hcol.
  eexists. split; reflexivity.
Qed.

End RunFacts.

(** ** The recorded run *)

(** The outputs stored in the notebook are those of solvers that return
    an optimal solution of the program they are handed. *)
Lemma recorded_solvers_optimal :
  milp_returns_optimum recorded_milp /\ solve_returns_optimum recorded_solve.
Proof.
  split.
  - exists recorded_sol, [1.0; 1.0; 1.0; 1.0; 0.0; 1.0; 0.0].
    split; [reflexivity|]. split; [reflexivity|].
    apply scipy_optimal_iff. repeat constructor.
  - exists recorded_solution, [1.0; 1.0; 1.0; 1.0; 0.0; 1.0; 0.0].
    split; [reflexivity|]. split; [discriminate|]. split; [reflexivity|].
    apply pulp_optimal_iff. repeat constructor.
Qed.

(** The value [fun] that SciPy reported is the objective at the vector
    it reported, and PuLP's objective value is its negation. *)
Lemma recorded_objectives :
  (exists x v, SciPy.x recorded_sol = Some x /\ SciPy.fun_ recorded_sol = Some v /\
               v == SciPy.objective scipy_model x /\ v == -23) /\
  (exists v, PuLP.value (PuLP.objective pulp_model) (PuLP.varValue recorded_solution)
             = Some v /\ v == 23).
Proof.
  split.
  - eexists _, _. repeat split; reflexivity.
  - eexists. split; reflexivity.
Qed.

(** ** The optimum does not hinge on the last digit of the capacity test *)



(** The program [milp] receives is [scipy_model]. *)
Lemma cell3_builds : snd Notebook.cell3 = inr scipy_model.
Proof. now rewrite cell3_runs. Qed.

(** * Properties of the notebook *)

(** C1.  For the hardcoded table and capacity 5, the selection
    (1,1,1,1,0,1,0), that is Compass, Knife, Fire Starter Kit, Tent and
    Food, is an optimal knapsack solution: its total value is 23, its
    total weight is 4.5, which is within the capacity, and every vector
    of {0,1}^7 whose total weight is within the capacity has a total
    value of at most 23. *)
Theorem knapsack_selection_optimal :
  Notebook.scipy_items_to_select selection = best /\
  selected_names best = ["Compass"; "Knife"; "Fire Starter Kit"; "Tent"; "Food"]%string /\
  total_value selection == 23 /\
  total_weight selection == 4.5 /\
  total_weight selection <= inject_Z knapsack_capacity /\
  fits selection /\
  (forall x, fits x -> total_value x <= 23).
Proof.
  split; [reflexivity|]. split; [reflexivity|].
  split; [apply selection_value|]. split; [apply selection_weight|].
  split; [apply selection_fits|]. split; [apply selection_fits|].
  apply fits_value_le.
Qed.

(** C8.  The optimum is unique: a vector of {0,1}^7 within the capacity
    is worth 23 exactly when it is (1,1,1,1,0,1,0), and any other such
    vector is worth strictly less. *)
Theorem knapsack_selection_unique (x : list Q) :
  fits x ->
  (total_value x == 23 <-> Forall2 Qeq x selection) /\
  (~ Forall2 Qeq x selection -> total_value x < 23).
Proof.
  intros Hfit. split; [now apply fits_value_23|].
  intros Hne. pose proof (fits_value_le x Hfit) as Hle.
  apply Qle_lteq in Hle as [Hlt|Heq]; [exact Hlt|].
  exfalso. apply Hne. now apply fits_value_23.
Qed.

(** At the fullest other packing (Compass, Knife, Fire Starter Kit, Tent
    and Propane Cylinder, 5.0 kg) the value is 22. *)
Lemma knapsack_selection_unique_witness :
  fits [1; 1; 1; 1; 1; 0; 0] /\ total_value [1; 1; 1; 1; 1; 0; 0] < 23.
Proof.
  assert (Hfit : fits [1; 1; 1; 1; 1; 0; 0]).
  { split; [reflexivity|].
    split; [apply (bits_binary [true; true; true; true; true; false; false])|].
    discriminate. }
  split; [exact Hfit|].
  apply (knapsack_selection_unique [1; 1; 1; 1; 1; 0; 0] Hfit).
  intros H. do 4 (apply Forall2_cons_1 in H as [_ H]).
  apply Forall2_cons_1 in H as [H _]. discriminate H.
Defined.

(** C6.  Every decision variable of both programs is binary.  The SciPy
    program gives each of the seven variables lower bound 0, upper bound
    1 and integrality 1; the PuLP program declares each with lowBound 0,
    upBound 1 and category LpBinary; a vector that respects these
    declarations, and so any feasible one, has every entry in {0, 1}. *)
Theorem decision_variables_binary :
  snd Notebook.cell3 = inr scipy_model /\
  SciPy.lb (SciPy.bounds scipy_model) = repeat 0 7 /\
  SciPy.ub (SciPy.bounds scipy_model) = repeat 1 7 /\
  SciPy.integrality scipy_model = repeat 1%Z 7 /\
  length Notebook.x1_decision_var = 7%nat /\
  Forall declared_binary (map snd Notebook.x1_decision_var) /\
  (forall x, SciPy.within_bounds scipy_model x ->
             Forall2 SciPy.integral (SciPy.integrality scipy_model) x ->
             binary_vector x) /\
  (forall x, Forall2 PuLP.var_ok (map snd Notebook.x1_decision_var) x ->
             binary_vector x) /\
  (forall x, SciPy.feasible scipy_model x -> length x = 7%nat /\ binary_vector x) /\
  (forall x, PuLP.feasible Notebook.x1_decision_var pulp_model x ->
             length x = 7%nat /\ binary_vector x).
Proof.
  split; [apply cell3_builds|].
  do 4 (split; [reflexivity|]).
  split; [apply x1_decision_var_declared|].
  split; [apply scipy_box_binary|].
  split.
  { intros x H. now apply (vars_ok_binary _ x x1_decision_var_declared) in H. }
  split.
  - intros x H. apply scipy_feasible_iff in H. tauto.
  - intros x H. apply pulp_feasible_iff in H. tauto.
Qed.

(** C9.  The lower bound 0 that the SciPy program puts on the weighted
    sum excludes nothing: the weights are nonnegative and every variable
    is at least 0, so the sum is at least 0 everywhere within the
    variable bounds; the feasible set is the one of the program without
    that bound, and the one of the PuLP program. *)
Theorem weight_lower_bound_redundant :
  SciPy.con_lb (SciPy.constraints scipy_model) = Some 0 /\
  SciPy.con_ub (SciPy.constraints scipy_model) = Some 5 /\
  Forall (Qle 0) (Weight_kg items) /\
  (forall x, SciPy.within_bounds scipy_model x ->
             0 <= dot (SciPy.A (SciPy.constraints scipy_model)) x) /\
  (forall x, SciPy.feasible scipy_model x <->
             SciPy.feasible (without_lower_bound scipy_model) x) /\
  (forall x, SciPy.feasible scipy_model x <->
             PuLP.feasible Notebook.x1_decision_var pulp_model x).
Proof.
  split; [reflexivity|]. split; [reflexivity|].
  split; [apply weights_nonneg|].
  split; [apply weight_nonneg_in_bounds|].
  split.
  - intros x. unfold SciPy.feasible. split.
    + intros (Hlen & Hbox & Hint & _ & Hub). repeat split; try assumption; apply Hbox.
    + intros (Hlen & Hbox & Hint & _ & Hub).
      split; [exact Hlen|]. split; [exact Hbox|]. split; [exact Hint|].
      split; [|exact Hub].
      now apply weight_nonneg_in_bounds.
  - intros x. now rewrite scipy_feasible_fits, pulp_feasible_fits.
Qed.

(** C2.  The SciPy program (minimise the negated values) and the PuLP
    program (maximise the values) are the same problem: a vector is
    optimal for one exactly when it is optimal for the other, the
    optimal objective values are -23 and 23, any two optimal solutions
    give the same column, and a run with solvers that return optimal
    solutions ends with the columns [scipy_items_to_select] and
    [pulp_items_to_select] equal on every row. *)
Theorem scipy_pulp_equivalent :
  SciPy.c scipy_model = [-6; -5; -4; -4; -3; -4; -1] /\
  Notebook.cell7 = ([], inr pulp_model) /\
  SciPy.optimal scipy_model selection /\
  (forall x, SciPy.optimal scipy_model x <->
             PuLP.optimal Notebook.x1_decision_var pulp_model x) /\
  (forall x, SciPy.optimal scipy_model x -> SciPy.objective scipy_model x == -23) /\
  (forall x, PuLP.optimal Notebook.x1_decision_var pulp_model x ->
             exists v, PuLP.objective_value Notebook.x1_decision_var pulp_model x = Some v
                       /\ v == 23) /\
  (forall xs xp,
      SciPy.optimal scipy_model xs ->
      PuLP.optimal Notebook.x1_decision_var pulp_model xp ->
      Notebook.scipy_items_to_select xs = Notebook.pulp_items_to_select (map Some xp)) /\
  (forall milp solve,
      milp_returns_optimum milp -> solve_returns_optimum solve ->
      exists g col,
        snd (Notebook.run_all milp solve) = inr g /\
        Py.get (Notebook.df g) "scipy_items_to_select" = Some (Pandas.BoolCol col) /\
        Py.get (Notebook.df g) "pulp_items_to_select" = Some (Pandas.BoolCol col)).
Proof.
  split; [reflexivity|]. split; [apply cell7_builds|].
  split; [apply scipy_optimal_iff; repeat constructor|].
  split; [intros x; now rewrite scipy_optimal_iff, pulp_optimal_iff|].
  split.
  { intros x Hx. apply scipy_optimal_iff in Hx.
    rewrite scipy_objective_neg. unfold total_value.
    rewrite (dot_Qeq _ _ _ Hx). reflexivity. }
  split.
  { intros x Hx. apply pulp_optimal_iff in Hx.
    destruct (pulp_objective_value x (Forall2_length _ _ _ Hx)) as (v & Hv & Hvx).
    exists v. split; [exact Hv|].
    rewrite Hvx. unfold total_value. rewrite (dot_Qeq _ _ _ Hx). reflexivity. }
  split.
  { intros xs xp Hs Hp.
    apply scipy_optimal_iff in Hs. apply pulp_optimal_iff in Hp.
    rewrite pulp_column_Some.
    rewrite (scipy_column_Qeq _ _ Hs), (scipy_column_Qeq _ _ Hp). reflexivity. }
  intros milp solve Hm Hs.
  destruct (run_all_columns milp solve Hm Hs) as (g & Hg & Hdf).
  exists g, best. split; [exact Hg|]. rewrite Hdf. split; reflexivity.
Qed.

(** C3.  The result cells turn the solution vector into a boolean
    column entry by entry: the i-th entry is True exactly when the i-th
    value equals 1 and False for any other value, a fraction included
    (and, for PuLP, for a variable without a value); the column a
    completed run appends is that function of the returned vector. *)
Theorem items_to_select_entrywise :
  (forall (x : list Q) i,
      (Notebook.scipy_items_to_select x !! i = Some true <->
       exists v, x !! i = Some v /\ v == 1) /\
      (Notebook.scipy_items_to_select x !! i = Some false <->
       exists v, x !! i = Some v /\ ~ v == 1)) /\
  (forall (r : list (option Q)) i,
      (Notebook.pulp_items_to_select r !! i = Some true <->
       exists v, r !! i = Some (Some v) /\ v == 1) /\
      (Notebook.pulp_items_to_select r !! i = Some false <->
       exists o, r !! i = Some o /\ forall v, o = Some v -> ~ v == 1)) /\
  Notebook.scipy_items_to_select [0.5; 1.0; 0.999; 2; 0] = [false; true; false; false; false] /\
  Notebook.pulp_items_to_select [Some 0.5; Some 1.0; None] = [false; true; false] /\
  (forall milp solve g,
      snd (Notebook.run_all milp solve) = inr g ->
      exists x,
        SciPy.x (Notebook.sol g) = Some x /\
        Py.get (Notebook.df g) "scipy_items_to_select"
        = Some (Pandas.BoolCol (Notebook.scipy_items_to_select x)) /\
        Py.get (Notebook.df g) "pulp_items_to_select"
        = Some (Pandas.BoolCol
                  (Notebook.pulp_items_to_select (Notebook.pulp_decision_var_results g)))).
Proof.
  split.
  { intros x i. unfold Notebook.scipy_items_to_select.
    rewrite list_lookup_fmap.
    destruct (x !! i) as [v|]; simpl.
    - split.
      + split.
        * intros [= H]. exists v. split; [reflexivity|now apply select_true].
        * intros (w & [= <-] & H). f_equal. now apply select_true.
      + split.
        * intros [= H]. exists v. split; [reflexivity|].
          intros Hv. apply select_true in Hv. congruence.
        * intros (w & [= <-] & H). f_equal.
          destruct (Notebook.select v) eqn:E; [|reflexivity].
          apply select_true in E. contradiction.
    - split; (split; [discriminate|intros (w & Hw & _); discriminate]). }
  split.
  { intros r i. unfold Notebook.pulp_items_to_select.
    rewrite list_lookup_fmap.
    destruct (r !! i) as [[v|]|]; simpl.
    - rewrite select_opt_Some. split.
      + split.
        * intros [= H]. exists v. split; [reflexivity|now apply select_true].
        * intros (w & [= <-] & H). f_equal. now apply select_true.
      + split.
        * intros [= H]. exists (Some v). split; [reflexivity|].
          intros w [= <-] Hv. apply select_true in Hv. congruence.
        * intros (o & [= <-] & H). f_equal.
          destruct (Notebook.select v) eqn:E; [|reflexivity].
          apply select_true in E. now apply H in E.
    - split.
      + split; [discriminate|intros (w & Hw & _); discriminate].
      + split; [|reflexivity]. intros _. exists None. split; [reflexivity|discriminate].
    - split; (split; [discriminate|intros (w & Hw & _); discriminate]). }
  split; [reflexivity|]. split; [reflexivity|].
  intros milp solve g Hg.
  destruct (run_all_final milp solve g Hg) as (x & s & _ & Hx & _ & _ & _ & _ & Hdf).
  exists x. split; [exact Hx|]. rewrite Hdf. split; reflexivity.
Qed.

(** C4.  The table is read-only through the solve.  Whatever the two
    solvers do, every frame a run shows is the four columns Item Id,
    Item Name, Weight (kg) and Relative Value exactly as constructed,
    followed only by boolean solution columns; the first frame shown is
    the table as constructed; and a completed run leaves the table as
    constructed plus [scipy_items_to_select] and then
    [pulp_items_to_select]. *)
Theorem dataset_columns_preserved
    (milp : SciPy.Problem -> Py.exn + SciPy.OptimizeResult)
    (solve : Py.dict PuLP.LpVariable -> PuLP.LpProblem -> Py.exn + PuLP.Solution) :
  Py.keys (items_dict items)
  = ["Item Id"; "Item Name"; "Weight (kg)"; "Relative Value"]%string /\
  Forall keeps_items (frames (fst (Notebook.run_all milp solve))) /\
  frames (fst (Notebook.run_all milp solve)) !! 0%nat = Some (items_dict items) /\
  (forall g,
      snd (Notebook.run_all milp solve) = inr g ->
      exists a b,
        Notebook.df g
        = items_dict items ++
          [ ("scipy_items_to_select"%string, Pandas.BoolCol a);
            ("pulp_items_to_select"%string, Pandas.BoolCol b) ]).
Proof.
  split; [reflexivity|].
  split; [apply run_all_frames|]. split; [apply run_all_frames|].
  intros g Hg.
  destruct (run_all_final milp solve g Hg) as (x & s & _ & _ & _ & _ & _ & _ & Hdf).
  eauto.
Qed.

(** C5.  The four arrays of the table have seven entries each, and both
    programs pair them by position: at every index i the i-th name,
    weight and value meet in the i-th objective and constraint
    coefficients of the SciPy program, in the i-th PuLP variable and its
    two terms, and (the names being distinct) in the lookups
    [weights[name]] and [relative_values[name]]; a value vector gives
    its i-th entry to the variable of the i-th name. *)
Theorem parallel_arrays_positional (i : nat) :
  (i < 7)%nat ->
  length (Item_Id items) = 7%nat /\
  length (Item_Name items) = 7%nat /\
  length (Weight_kg items) = 7%nat /\
  length (Relative_Value items) = 7%nat /\
  exists n w v,
    Item_Name items !! i = Some n /\
    Weight_kg items !! i = Some w /\
    Relative_Value items !! i = Some v /\
    SciPy.c scipy_model !! i = Some (inject_Z (- v)) /\
    SciPy.A (SciPy.constraints scipy_model) !! i = Some w /\
    Py.keys Notebook.x1_decision_var !! i = Some n /\
    Py.get Notebook.weights n = Some w /\
    Py.get Notebook.relative_values n = Some v /\
    PuLP.objective pulp_model !! i = Some (inject_Z v, n) /\
    (forall k, PuLP.constraints pulp_model = [k] -> PuLP.lhs k !! i = Some (w, n)) /\
    (forall x, length x = 7%nat ->
               PuLP.assignment Notebook.x1_decision_var x n = x !! i).
Proof.
  intros Hi. do 4 (split; [reflexivity|]).
  assert (Hn : exists n, Item_Name items !! i = Some n).
  { apply lookup_lt_is_Some. exact Hi. }
  destruct Hn as [n Hn].
  assert (Hw : exists w, Weight_kg items !! i = Some w).
  { apply lookup_lt_is_Some. exact Hi. }
  destruct Hw as [w Hw].
  assert (Hv : exists v, Relative_Value items !! i = Some v).
  { apply lookup_lt_is_Some. exact Hi. }
  destruct Hv as [v Hv].
  exists n, w, v.
  split; [exact Hn|]. split; [exact Hw|]. split; [exact Hv|].
  split.
  { rewrite scipy_model_c, map_map, list_lookup_fmap, Hv. reflexivity. }
  split; [exact Hw|].
  split; [rewrite x1_decision_var_keys; exact Hn|].
  split; [eapply get_dict_zip; eauto using item_names_distinct|].
  split; [eapply get_dict_zip; eauto using item_names_distinct|].
  split.
  { change (PuLP.objective pulp_model)
      with (zip (map inject_Z (Relative_Value items)) (Item_Name items)).
    apply lookup_zip_Some. rewrite list_lookup_fmap, Hv. now split. }
  split.
  { intros k Hk.
    change (PuLP.constraints pulp_model)
      with [ {| PuLP.lhs := zip (Weight_kg items) (Item_Name items);
                PuLP.rhs := inject_Z knapsack_capacity |} ] in Hk.
    injection Hk as <-.
    change (zip (Weight_kg items) (Item_Name items) !! i = Some (w, n)).
    apply lookup_zip_Some. now split. }
  intros x Hlen. now apply assignment_positional.
Qed.

(** At index 2: Fire Starter Kit, 0.4 kg, value 4. *)
Lemma parallel_arrays_positional_witness :
  exists n w v,
    Item_Name items !! 2%nat = Some n /\
    Weight_kg items !! 2%nat = Some w /\
    Relative_Value items !! 2%nat = Some v /\
    SciPy.c scipy_model !! 2%nat = Some (inject_Z (- v)) /\
    SciPy.A (SciPy.constraints scipy_model) !! 2%nat = Some w /\
    Py.keys Notebook.x1_decision_var !! 2%nat = Some n /\
    Py.get Notebook.weights n = Some w /\
    Py.get Notebook.relative_values n = Some v /\
    PuLP.objective pulp_model !! 2%nat = Some (inject_Z v, n) /\
    (forall k, PuLP.constraints pulp_model = [k] -> PuLP.lhs k !! 2%nat = Some (w, n)) /\
    (forall x, length x = 7%nat ->
               PuLP.assignment Notebook.x1_decision_var x n = x !! 2%nat).
Proof.
  apply (parallel_arrays_positional 2). lia.
Defined.

(** C7.  Nothing stands between the solvers and the notebook output.
    An exception raised by [milp] is the exception the run ends with;
    a returned result is printed as it is, whatever its status; a result
    without a solution is not recovered from (the next cell fails on it,
    PuLP is not reached).  Once the SciPy part has gone through, an
    exception raised by the PuLP solve is the exception the run ends
    with, and a returned status is printed through the [LpStatus] lookup
    together with [prob.sol_status].  No solver is called twice. *)
Theorem solver_outcome_surfaced_unmodified
    (milp : SciPy.Problem -> Py.exn + SciPy.OptimizeResult)
    (solve : Py.dict PuLP.LpVariable -> PuLP.LpProblem -> Py.exn + PuLP.Solution) :
  (forall P, Notebook.cell4 milp P
             = match milp P with
               | inl e => ([Notebook.Called "milp"], inl e)
               | inr r => ([Notebook.Called "milp";
                            Notebook.Printed [Notebook.PResult r]], inr r)
               end) /\
  (forall p, Notebook.cell8 solve p
             = ([Notebook.Called "solve"], solve Notebook.x1_decision_var p)) /\
  (forall e, milp scipy_model = inl e ->
             snd (Notebook.run_all milp solve) = inl e) /\
  (forall r, milp scipy_model = inr r ->
             In (Notebook.Printed [Notebook.PResult r])
                (fst (Notebook.run_all milp solve))) /\
  (forall r, milp scipy_model = inr r -> SciPy.x r = None ->
             snd (Notebook.run_all milp solve)
             = inl (Py.TypeError "unsupported operand type(s) for *") /\
             calls "solve" (fst (Notebook.run_all milp solve)) = 0%nat) /\
  (forall r x, milp scipy_model = inr r -> SciPy.x r = Some x -> length x = 7%nat ->
     (forall e, solve Notebook.x1_decision_var pulp_model = inl e ->
                snd (Notebook.run_all milp solve) = inl e) /\
     (forall s, solve Notebook.x1_decision_var pulp_model = inr s ->
                match PuLP.LpStatus (PuLP.status s) with
                | Some text =>
                    In (Notebook.Printed
                          [Notebook.PStr "Solution Status:"; Notebook.PStr text;
                           Notebook.PInt (PuLP.sol_status s)])
                       (fst (Notebook.run_all milp solve))
                | None =>
                    snd (Notebook.run_all milp solve) = inl (Py.KeyError "LpStatus")
                end)) /\
  calls "milp" (fst (Notebook.run_all milp solve)) = 1%nat /\
  (calls "solve" (fst (Notebook.run_all milp solve)) <= 1)%nat.
Proof.
  split.
  { intros P. unfold Notebook.cell4, Notebook.bind, Notebook.call.
    destruct (milp P); reflexivity. }
  split; [reflexivity|].
  split; [intros e He; now apply run_all_milp_raises|].
  split; [apply run_all_prints_result|].
  split; [apply run_all_no_solution|].
  split.
  { intros r x Hr Hx Hlen. split.
    - intros e. now apply (run_all_solve_raises milp solve r x e).
    - intros s. now apply (run_all_prints_status milp solve r x s). }
  apply run_all_calls.
Qed.

(** A solver that reports "infeasible" without a solution vector: the
    result is printed as returned and the run ends in the [TypeError] of
    the next cell. *)
Example infeasible_result_not_handled :
  let r := {| SciPy.message := "The problem is infeasible. (HiGHS Status 8)";
              SciPy.success := false; SciPy.status := 2;
              SciPy.fun_ := None; SciPy.x := None;
              SciPy.mip_node_count := None; SciPy.mip_dual_bound := None;
              SciPy.mip_gap := None |} in
  let run := Notebook.run_all (fun _ => inr r) recorded_solve in
  In (Notebook.Printed [Notebook.PResult r]) (fst run) /\
  snd run = inl (Py.TypeError "unsupported operand type(s) for *").
Proof. cbn. split; [tauto|reflexivity]. Qed.

(** A PuLP solve that reports "Infeasible" (-1): the text and the code
    are printed; the result cell still runs on whatever values the
    variables hold. *)
Example infeasible_status_printed :
  let s := {| PuLP.status := -1; PuLP.sol_status := -1;
              PuLP.varValue := fun _ => None |} in
  let run := Notebook.run_all recorded_milp (fun _ _ => inr s) in
  In (Notebook.Printed [Notebook.PStr "Solution Status:";
                        Notebook.PStr "Infeasible"; Notebook.PInt (-1)]) (fst run) /\
  exists g, snd run = inr g /\
    Py.get (Notebook.df g) "pulp_items_to_select"
    = Some (Pandas.BoolCol (repeat false 7)).
Proof. cbn. split; [tauto|]. eexists. split; reflexivity. Qed.

(** * Beyond the recorded table *)

(** ** More on ordered dictionaries *)

Section DictMore.
Context {V : Type}.
Implicit Types (d : Py.dict V) (k : string) (v : V).







Lemma get_fold_set_Some (f : string -> V) (l : list string) d k :
  is_Some (Py.get d k) ->
  is_Some (Py.get (fold_left (fun d i => Py.set d i (f i)) l d) k).
Proof.
  revert d. induction l as [|i l IH]; intros d Hk; simpl; [exact Hk|].
  apply IH. destruct (decide (i = k)) as [->|Hne].
  - rewrite get_set_eq. eauto.
  - now rewrite get_set_ne.
Qed.

Lemma get_fold_set_elem (f : string -> V) (l : list string) d k :
  k ∈ l -> is_Some (Py.get (fold_left (fun d i => Py.set d i (f i)) l d) k).
Proof.
  revert d. induction l as [|i l IH]; intros d Hk; [inversion Hk|].
  simpl. apply elem_of_cons in Hk as [->|Hk].
  - apply get_fold_set_Some. rewrite get_set_eq. eauto.
  - now apply IH.
Qed.



(** A key beyond the shorter list is missing from [dict(zip(ks, vs))]. *)
Lemma get_dict_zip_short (ks : list string) (vs : list V) k :
  k ∉ take (length vs) ks -> Py.get (Py.dict_zip ks vs) k = None.
Proof.
  intros Hk. unfold Py.dict_zip. rewrite get_fold_set_notin; [reflexivity|].
  intros Hin. apply Hk.
  apply list_elem_of_fmap in Hin as [[k1 v1] [-> Hin]].
  apply list_elem_of_lookup in Hin as [j Hj].
  apply lookup_zip_Some in Hj as [Hj1 Hj2].
  apply list_elem_of_lookup. exists j.
  rewrite lookup_take_lt; [exact Hj1|].
  now apply lookup_lt_Some in Hj2.
Qed.

End DictMore.

(** ** numpy products *)





(** ** Cell 3 on any table *)



(** The cells of the notebook are these, at [items] and
    [knapsack_capacity]. *)
Lemma generic_cells_at_items :
  Generic.cell2 items = Notebook.cell2 /\
  Generic.cell3 items knapsack_capacity = Notebook.cell3 /\
  Generic.cell7 items knapsack_capacity = Notebook.cell7 /\
  Generic.x1_decision_var items = Notebook.x1_decision_var /\
  Generic.positional_problem items knapsack_capacity = pulp_model.
Proof. repeat split; reflexivity. Qed.

(** ** Cell 7 on any table *)



Lemma generic_var_present (it : Items) (n : string) :
  n ∈ Item_Name it -> is_Some (Py.get (Generic.x1_decision_var it) n).
Proof. apply get_fold_set_elem. Qed.

Lemma getitem_Some {V} (d : Py.dict V) i v :
  Py.get d i = Some v -> Notebook.getitem d i = inr v.
Proof. unfold Notebook.getitem. now intros ->. Qed.

Lemma getitem_None {V} (d : Py.dict V) i :
  Py.get d i = None -> Notebook.getitem d i = inl (Py.KeyError i).
Proof. unfold Notebook.getitem. now intros ->. Qed.

(** When every name finds the coefficient of its own position, the
    comprehension is the list of (coefficient, name) pairs. *)
Lemma terms_positional {V} (it : Items) (inj : V -> Q) (coef : Py.dict V)
    (ns : list string) (cs : list V) :
  length cs = length ns ->
  (forall i n, ns !! i = Some n -> Py.get coef n = cs !! i) ->
  (forall n, n ∈ ns -> is_Some (Py.get (Generic.x1_decision_var it) n)) ->
  Generic.terms it inj coef ns = inr (zip (map inj cs) ns).
Proof.
  revert cs. induction ns as [|n ns IH]; intros cs Hlen Hget Hvar.
  - destruct cs; [reflexivity|discriminate].
  - destruct cs as [|c cs]; [discriminate|].
    cbn [Generic.terms].
    rewrite (getitem_Some coef n c) by exact (Hget 0%nat n eq_refl).
    destruct (Hvar n) as [var Hv]; [left|].
    rewrite (getitem_Some _ n var Hv).
    rewrite (IH cs).
    + reflexivity.
    + simpl in Hlen. lia.
    + intros i m Hm. exact (Hget (S i) m Hm).
    + intros m Hm. apply Hvar. now right.
Qed.

(** The comprehension stops at the first name without a coefficient. *)
Lemma terms_missing {V} (it : Items) (inj : V -> Q) (coef : Py.dict V)
    (ns1 ns2 : list string) (n : string) :
  (forall m, m ∈ ns1 ->
             is_Some (Py.get coef m) /\ is_Some (Py.get (Generic.x1_decision_var it) m)) ->
  Py.get coef n = None ->
  Generic.terms it inj coef (ns1 ++ n :: ns2) = inl (Py.KeyError n).
Proof.
  intros Hok Hn. induction ns1 as [|m ns1 IH]; cbn [app Generic.terms].
  - now rewrite (getitem_None coef n Hn).
  - destruct (Hok m) as [[c Hc] [var Hv]]; [left|].
    rewrite (getitem_Some coef m c Hc), (getitem_Some _ m var Hv).
    rewrite IH; [reflexivity|].
    intros m' Hm'. apply Hok. now right.
Qed.



(** ** Both programs on any table of seven rows *)







Lemma terms_short {V} (it : Items) (inj : V -> Q) (cs : list V) (n : string) :
  NoDup (Item_Name it) -> Item_Name it !! length cs = Some n ->
  Generic.terms it inj (Py.dict_zip (Item_Name it) cs) (Item_Name it)
  = inl (Py.KeyError n).
Proof.
  intros Hnd Hn.
  pose proof (take_drop_middle _ _ _ Hn) as Hsplit.
  assert (Hnotin : n ∉ take (length cs) (Item_Name it)).
  { rewrite <- Hsplit in Hnd. apply NoDup_app in Hnd as (_ & Hdis & _).
    intros Hin. apply (Hdis n Hin). left. }
  rewrite <- Hsplit at 2. apply terms_missing.
  - intros m Hm. apply elem_of_take in Hm as (j & Hj & Hlt). split.
    + apply lookup_lt_is_Some in Hlt as [c Hc].
      exists c. eapply get_dict_zip; eauto.
    + apply generic_var_present. apply list_elem_of_lookup. eauto.
  - now apply get_dict_zip_short.
Qed.

(** ** Properties of the cells on any table *)




(** X3.  A coefficient array shorter than the name list makes cell 7
    fail with the [KeyError] of the first name left without a
    coefficient: [zip] stops at the shorter list and the lookup by name
    finds nothing.  The objective is built first, so a short value array
    is reported before a short weight array. *)
Theorem cell7_short_array (it : Items) (capacity : Z) (n : string) :
  NoDup (Item_Name it) ->
  (Item_Name it !! length (Relative_Value it) = Some n ->
   snd (Generic.cell7 it capacity) = inl (Py.KeyError n)) /\
  (length (Relative_Value it) = length (Item_Name it) ->
   Item_Name it !! length (Weight_kg it) = Some n ->
   snd (Generic.cell7 it capacity) = inl (Py.KeyError n)).
Proof.
  intros Hnd. split.
  - intros Hn. unfold Generic.cell7, Notebook.bind, Notebook.lift.
    unfold Generic.relative_values. now rewrite (terms_short it inject_Z _ n Hnd Hn).
  - intros Hv Hn. unfold Generic.cell7, Notebook.bind, Notebook.lift.
    unfold Generic.relative_values, Generic.weights.
    rewrite (terms_positional it inject_Z _ _ (Relative_Value it) Hv).
    + now rewrite (terms_short it (fun w => w) _ n Hnd Hn).
    + intros i m Hm.
      assert (Hi : (i < length (Relative_Value it))%nat).
      { rewrite Hv. now apply lookup_lt_Some in Hm. }
      apply lookup_lt_is_Some in Hi as [c Hc]. rewrite Hc.
      eapply get_dict_zip; eauto.
    + apply generic_var_present.
Qed.

Lemma cell7_short_array_witness :
  snd (Generic.cell7 short_items 5) = inl (Py.KeyError "Rope").
Proof.
  refine (proj1 (cell7_short_array short_items 5 "Rope" _) _).
  - refine (bool_decide_unpack (NoDup (Item_Name short_items)) _).
    vm_compute. exact I.
  - reflexivity.
Defined.







(** ** Properties of a run *)



Section RunMore.
Import Notebook.
Variable milp : SciPy.Problem -> Py.exn + SciPy.OptimizeResult.
Variable solve : Py.dict PuLP.LpVariable -> PuLP.LpProblem
                 -> Py.exn + PuLP.Solution.

(** X6.  A run of all cells completes exactly when [milp] returns a
    result with a solution vector of seven entries and the PuLP solve
    returns a status that is a key of [LpStatus]; nothing else about the
    two results matters (not [success], not the status code, not
    whether PuLP left values in the variables). *)
Theorem run_all_completes_iff :
  (exists g, snd (run_all milp solve) = inr g) <->
  (exists r x s,
      milp scipy_model = inr r /\ SciPy.x r = Some x /\ length x = 7%nat /\
      solve x1_decision_var pulp_model = inr s /\
      PuLP.LpStatus (PuLP.status s) <> None).
Proof.
  split.
  - intros [g Hg]. revert Hg. run_cases; try discriminate. intros _.
    frame_steps.
    match goal with
    | H : Pandas.col_len (Pandas.BoolCol (scipy_items_to_select ?l)) = _ |- _ =>
        cbn in H; unfold scipy_items_to_select in H; rewrite length_map in H
    end.
    eexists _, _, _. repeat (split; [first [eassumption|reflexivity]|]). congruence.
  - intros (r & x & s & Hr & Hx & Hlen & Hs & Hst).
    destruct (np_mul_defined Qmult x (Weight_kg items) Hlen) as [w Hw].
    pose proof (scipy_column_added x Hlen) as Hset.
    destruct (PuLP.LpStatus (PuLP.status s)) as [text|] eqn:Htext; [|congruence].
    run_unfold. repeat run_step. eexists. reflexivity.
Qed.



End RunMore.



(** ** Re-running a result cell *)



(** ** The boolean column and the vector it comes from *)

Lemma select_bit (t : bool) : Notebook.select (if t then 1 else 0) = t.
Proof. destruct t; reflexivity. Qed.

(** X9.  On binary vectors the formatting loses nothing: the column of
    a boolean selection read as a float vector is that selection, and a
    binary float vector is, as numbers, the vector of its own column; so
    the rows a result cell marks True weigh and are worth what the
    returned vector says, and fit the knapsack when the vector is
    feasible.  A value that is not 0 or 1 is where this fails. *)
Theorem column_round_trip :
  (forall b, Notebook.scipy_items_to_select (bits b) = b) /\
  (forall x, binary_vector x ->
             Forall2 Qeq x (bits (Notebook.scipy_items_to_select x))) /\
  (forall x, binary_vector x ->
             total_weight (bits (Notebook.scipy_items_to_select x)) == total_weight x /\
             total_value (bits (Notebook.scipy_items_to_select x)) == total_value x) /\
  (forall x, SciPy.feasible scipy_model x ->
             fits (bits (Notebook.scipy_items_to_select x))) /\
  (forall v, ~ v == 0 -> ~ v == 1 ->
             ~ Forall2 Qeq [v] (bits (Notebook.scipy_items_to_select [v]))).
Proof.
  assert (Hback : forall x, binary_vector x ->
             Forall2 Qeq x (bits (Notebook.scipy_items_to_select x))).
  { unfold Notebook.scipy_items_to_select, bits.
    induction 1 as [|v x Hv Hx IH]; [constructor|].
    cbn [map]. constructor; [|exact IH].
    destruct Hv as [Hv|Hv]; rewrite (select_Qeq _ _ Hv); exact Hv. }
  split.
  { unfold Notebook.scipy_items_to_select, bits.
    induction b as [|t b IH]; [reflexivity|].
    cbn [map]. now rewrite select_bit, IH. }
  split; [exact Hback|]. split.
  { intros x Hx. split; symmetry; apply dot_Qeq; now apply Hback. }
  split.
  { intros x Hf. apply scipy_feasible_fits in Hf.
    eapply fits_Qeq; [|exact Hf].
    apply Forall2_flip. eapply Forall2_impl; [apply Hback, Hf|].
    intros a b Hab. now symmetry. }
  intros v H0 H1 H. apply Forall2_cons_1 in H as [H _].
  cbn in H. destruct (Notebook.select v); cbn in H; auto.
Qed.

(** ** The objective value cell 9 prints *)


Section PrintedObjective.
Import Notebook.
Variable milp : SciPy.Problem -> Py.exn + SciPy.OptimizeResult.
Variable solve : Py.dict PuLP.LpVariable -> PuLP.LpProblem
                 -> Py.exn + PuLP.Solution.


End PrintedObjective.


(** ** How far the capacity can move *)

